(** * Gmail attachment synchroniser: a shallow embedding of [app/app.py]

    The module receives Pub/Sub push notifications for one mailbox, reads the
    mailbox history since the last stored [historyId], uploads the attachments
    of the new INBOX messages to a bucket and stores the new [historyId].

    Python values are modelled by the types below; the Datastore entity, the
    bucket and the outbound calls form an explicit [world] threaded through a
    small state-and-exception monad.  Library functions whose code is not part
    of the module (base64, UTF-8, JSON, [int] on strings, the iteration order
    of a set, the storage backend) are taken as a parameter, so every theorem
    holds for any behaviour they may have.  The Gmail service is an argument
    of the functions, as in the source.

    Not modelled: logging, the two watch endpoints, floating-point JSON
    numbers, requests that [request.get_json()] refuses before the view
    reads the envelope, and failures of the Datastore requests themselves (a read or a
    write of the entity always succeeds once the client exists). *)

From Stdlib Require Import ZArith Ascii String List Lia.
From Stdlib.Strings Require Import Byte.
From stdpp Require Import base tactics option list numbers strings pretty gmap.

Local Open Scope string_scope.
Local Open Scope list_scope.

(** ** Strings

    A Python string is a [string], read character by character.  The
    patterns of [sanitize_filename] name ASCII characters only, so every
    other character is treated alike. *)

(** [string_all p s]: every character of [s] satisfies [p]. *)
Fixpoint string_all (p : ascii → bool) (s : string) : bool :=
  match s with
  | EmptyString => true
  | String c s' => p c && string_all p s'
  end.

(** ** [sanitize_filename] *)

Definition in_range (lo hi c : ascii) : bool :=
  ((N_of_ascii lo <=? N_of_ascii c) && (N_of_ascii c <=? N_of_ascii hi))%N.

(** The character class [[a-zA-Z0-9_.-]] of the first substitution. *)
Definition safe_char (c : ascii) : bool :=
  in_range "a" "z" c || in_range "A" "Z" c || in_range "0" "9" c
  || Ascii.eqb c "_" || Ascii.eqb c "." || Ascii.eqb c "-".

(** The characters removed by [strip('_.-')]. *)
Definition strip_char (c : ascii) : bool :=
  Ascii.eqb c "_" || Ascii.eqb c "." || Ascii.eqb c "-".

(** [re.sub(r'[^a-zA-Z0-9_.-]', '_', filename)] *)
Fixpoint replace_unsafe (s : string) : string :=
  match s with
  | EmptyString => EmptyString
  | String c s' => String (if safe_char c then c else "_"%char) (replace_unsafe s')
  end.

(** [re.sub(r'_+', '_', sani)]: of a run of underscores only the last one is
    kept. *)
Fixpoint collapse_underscores (s : string) : string :=
  match s with
  | EmptyString => EmptyString
  | String c s' =>
      match s' with
      | String c' _ =>
          if Ascii.eqb c "_" && Ascii.eqb c' "_" then collapse_underscores s'
          else String c (collapse_underscores s')
      | EmptyString => String c EmptyString
      end
  end.

(** [str.lstrip(chars)] and [str.rstrip(chars)]; [strip] does both. *)
Fixpoint lstrip (p : ascii → bool) (s : string) : string :=
  match s with
  | EmptyString => EmptyString
  | String c s' => if p c then lstrip p s' else s
  end.

Fixpoint rstrip (p : ascii → bool) (s : string) : string :=
  match s with
  | EmptyString => EmptyString
  | String c s' =>
      match rstrip p s' with
      | EmptyString => if p c then EmptyString else String c EmptyString
      | r => String c r
      end
  end.

Definition strip (p : ascii → bool) (s : string) : string := rstrip p (lstrip p s).

(** The three rewriting steps of [sanitize_filename], before the fallback. *)
Definition sanitized_form (filename : string) : string :=
  strip strip_char (collapse_underscores (replace_unsafe filename)).

(** [filename] is [None] for Python's [None]; [if not filename] holds for
    [None] and for the empty string. *)
Definition sanitize_filename (filename : option string) : string :=
  match filename with
  | None | Some EmptyString => "unnamed_attachment"
  | Some f =>
      match sanitized_form f with
      | EmptyString => "attachment"
      | sani => sani
      end
  end.

(** What a sanitized name must satisfy: it is not empty, uses characters of
    [[A-Za-z0-9_.-]] only, holds no two adjacent underscores, and neither
    starts nor ends with one of [_.-]. *)
Definition well_formed_name (r : string) : Prop :=
  r ≠ "" ∧
  string_all safe_char r = true ∧
  (∀ s1 s2, r ≠ s1 +:+ "__" +:+ s2) ∧
  (∀ c s, r = String c s → strip_char c = false) ∧
  (∀ s c, r = s +:+ String c "" → strip_char c = false).

(** Executable checks used to examine concrete names: two adjacent
    underscores, and the last character. *)
Fixpoint has_double_underscore (s : string) : bool :=
  match s with
  | String c (String c' _ as s') =>
      (Ascii.eqb c "_" && Ascii.eqb c' "_") || has_double_underscore s'
  | _ => false
  end.

Fixpoint last_char (s : string) : option ascii :=
  match s with
  | EmptyString => None
  | String c EmptyString => Some c
  | String _ s' => last_char s'
  end.

(** ** Blob names *)

(** [f"{msg_id}/{i}_{sane_filename}"], with [i] the index given by
    [enumerate(parts)]. *)
Definition destination_blob_name (msg_id : string) (i : nat) (sane_filename : string) : string :=
  msg_id +:+ "/" +:+ pretty i +:+ "_" +:+ sane_filename.

Definition not_underscore (c : ascii) : bool := negb (Ascii.eqb c "_").

(** ** Python values and exceptions *)

(** The exception classes the module can meet.  All of them derive from
    [Exception]; [HttpError] is googleapiclient's, [JSONDecodeError] is
    [json]'s, [BinasciiError] is [binascii.Error]. *)
Inductive exn :=
  | HttpError | RuntimeError | TypeError | ValueError | AttributeError
  | BinasciiError | UnicodeDecodeError | JSONDecodeError
  | OtherError (name : string).

Global Instance exn_eq_dec : EqDecision exn.
Proof. solve_decision. Defined.

(** The outcome of a call: a value or a raised exception. *)
Inductive res (A : Type) :=
  | Ok (a : A)
  | Raise (e : exn).
Global Arguments Ok {A} a.
Global Arguments Raise {A} e.

#[local] Set Warnings "-register-all".

(** A decoded JSON document, as [request.get_json()] and [json.loads] return
    it ([None] is [JNull]; numbers are integers). *)
Inductive json :=
  | JNull
  | JBool (b : bool)
  | JNum (z : Z)
  | JStr (s : string)
  | JArr (l : list json)
  | JObj (items : list (string * json)).

(** Python truthiness: [None], [False], [0], the empty string, list and dict
    are false. *)
Definition truthy (v : json) : bool :=
  match v with
  | JNull => false
  | JBool b => b
  | JNum z => negb (z =? 0)%Z
  | JStr s => negb (String.eqb s "")
  | JArr l => match l with [] => false | _ => true end
  | JObj kv => match kv with [] => false | _ => true end
  end.

Fixpoint dict_lookup (k : string) (items : list (string * json)) : option json :=
  match items with
  | [] => None
  | (k', v) :: rest => if String.eqb k k' then Some v else dict_lookup k rest
  end.

(** [d.get(k)]: [None] when the key is absent; only a dict has [.get]. *)
Definition py_get (d : json) (k : string) : res json :=
  match d with
  | JObj items => Ok (default JNull (dict_lookup k items))
  | _ => Raise AttributeError
  end.

(** [k in d], for [d] a dict. *)
Definition py_in (k : string) (d : json) : bool :=
  match d with
  | JObj items => bool_decide (is_Some (dict_lookup k items))
  | _ => false
  end.

(** [d[k]], for a key known to be present. *)
Definition py_item (d : json) (k : string) : json :=
  match d with
  | JObj items => default JNull (dict_lookup k items)
  | _ => JNull
  end.

Definition bytes := list byte.

Global Instance byte_eq_decision : EqDecision byte := Byte.byte_eq_dec.

(** ** The environment of the module *)

(** Behaviour of the library functions the module calls, of the interpreter
    and of the storage backend.  [set_order s] is the order in which a [for]
    loop visits the set [s], which Python leaves unspecified;
    [gcs_upload_ok name] tells whether [blob.upload_from_string] succeeds
    for the object [name]. *)
Record runtime := {
  b64decode : string → res bytes;
  urlsafe_b64decode : string → res bytes;
  utf8_decode : bytes → res string;
  json_loads : string → res json;
  int_of_str : string → res Z;
  set_order : gset string → list string;
  gcs_upload_ok : string → bool;
}.

(** A loop over a set visits each member once. *)
Definition visits_each_once (rt : runtime) : Prop :=
  ∀ s : gset string, set_order rt s ≡ₚ elements s.

(** Module-level globals fixed at import time. *)
Record config := {
  TARGET_USER_EMAIL : option string;
  datastore_client : bool;
  storage_client : bool;
}.

(** *** Gmail API documents *)

Record message_ref := {
  id : option string;
  labelIds : list string;
}.

Record message_added := { message : option message_ref }.

Record change := { messagesAdded : list message_added }.

Record history_response := {
  historyId : option json;
  history : list change;
}.

Record part_body := { attachmentId : option string }.

Record message_part := {
  filename : option string;
  mimeType : option string;
  body : option part_body;
}.

(** A message in [format='full']; an absent [payload] or [parts] is the
    empty list, as [message.get('payload', {}).get('parts', [])] reads it. *)
Record full_message := { parts : list message_part }.

Record attachment := { data : option string }.

(** The object returned by [get_gmail_service]: what each request answers
    when executed. *)
Record gmail_service := {
  history_list : Z → res history_response;
  messages_get : string → res full_message;
  attachments_get : string → string → res attachment;
}.

(** *** State *)

Record blob := {
  blob_data : bytes;
  blob_content_type : string;
}.

(** Outbound calls, in the order they are made. *)
Inductive call :=
  | HistoryList (startHistoryId : Z)
  | MessagesGet (msg_id : string)
  | AttachmentsGet (msg_id attachment_id : string)
  | BlobUpload (name : string)
  | DatastorePut (history_id : Z).

Global Instance call_eq_dec : EqDecision call.
Proof. solve_decision. Defined.

(** [entity] is the [historyId] of the entity stored under [DATASTORE_KEY]
    ([None]: no entity); [bucket] maps object names to their content. *)
Record world := {
  entity : option Z;
  bucket : gmap string blob;
  calls : list call;
}.

Definition set_entity (n : Z) (w : world) : world :=
  {| entity := Some n; bucket := bucket w; calls := calls w |}.

Definition set_blob (name : string) (b : blob) (w : world) : world :=
  {| entity := entity w; bucket := <[name := b]> (bucket w); calls := calls w |}.

Definition add_call (c : call) (w : world) : world :=
  {| entity := entity w; bucket := bucket w; calls := calls w ++ [c] |}.

(** ** The monad: state and exceptions

    A raised exception keeps the state reached so far: what was written to
    Datastore or to the bucket before the exception stays written. *)

Definition M (A : Type) : Type := world → res A * world.

Global Instance M_ret : MRet M := λ A a w, (Ok a, w).

Global Instance M_bind : MBind M := λ A B f m w,
  match m w with
  | (Ok a, w') => f a w'
  | (Raise e, w') => (Raise e, w')
  end.

Definition raise {A} (e : exn) : M A := λ w, (Raise e, w).

Definition lift {A} (r : res A) : M A := λ w, (r, w).

Definition modify (f : world → world) : M unit := λ w, (Ok tt, f w).

Definition read {A} (f : world → A) : M A := λ w, (Ok (f w), w).

(** [try: m  except <classes>: h]: [handles e] says whether the clause
    catches [e]. *)
Definition try_except {A} (m : M A) (handles : exn → bool) (h : exn → M A) : M A :=
  λ w, match m w with
       | (Raise e, w') => if handles e then h e w' else (Raise e, w')
       | r => r
       end.

(** [for x in l: f x] *)
Fixpoint for_each {A} (l : list A) (f : A → M unit) : M unit :=
  match l with
  | [] => mret tt
  | x :: l' => f x ;; for_each l' f
  end.

(** [enumerate(l)], counting from [i]. *)
Fixpoint enumerate_from {A} (i : nat) (l : list A) : list (nat * A) :=
  match l with
  | [] => []
  | x :: l' => (i, x) :: enumerate_from (S i) l'
  end.

Definition is_HttpError (e : exn) : bool := bool_decide (e = HttpError).
Definition is_JSONDecodeError (e : exn) : bool := bool_decide (e = JSONDecodeError).
Definition is_Exception (e : exn) : bool := true.

Definition nonempty_str (o : option string) : option string :=
  match o with
  | Some EmptyString | None => None
  | Some s => Some s
  end.

(** ** The module's functions *)

Section App.

Variable cfg : config.
Variable rt : runtime.

(** [int(v)]: an integer is itself, a boolean is 0 or 1, a string is
    parsed, anything else ([None], a list, a dict) is a [TypeError]. *)
Definition py_int (v : json) : res Z :=
  match v with
  | JNum z => Ok z
  | JBool b => Ok (if b then 1 else 0)%Z
  | JStr s => int_of_str rt s
  | JNull | JArr _ | JObj _ => Raise TypeError
  end.

(** *** Gmail helpers *)

Definition get_message (service : gmail_service) (msg_id : string) : M (option full_message) :=
  try_except
    (modify (add_call (MessagesGet msg_id));;
     message ← lift (messages_get service msg_id);
     mret (Some message))
    is_HttpError
    (λ _, mret None).

Definition get_attachment (service : gmail_service) (msg_id attachment_id : string)
    : M (option bytes) :=
  try_except
    (modify (add_call (AttachmentsGet msg_id attachment_id));;
     attachment ← lift (attachments_get service msg_id attachment_id);
     match nonempty_str (data attachment) with
     | Some d => b ← lift (urlsafe_b64decode rt d); mret (Some b)
     | None => mret None
     end)
    is_HttpError
    (λ _, mret None).

(** *** Storage helper *)

Definition upload_to_gcs (destination_blob_name : string) (data : bytes)
    (content_type : string) : M bool :=
  if negb (storage_client cfg) then mret false
  else
    try_except
      (modify (add_call (BlobUpload destination_blob_name));;
       (if gcs_upload_ok rt destination_blob_name
        then modify (set_blob destination_blob_name
                       {| blob_data := data; blob_content_type := content_type |})
        else raise (OtherError "GoogleCloudError"));;
       mret true)
      is_Exception
      (λ _, mret false).

(** *** Datastore helpers *)

Definition get_last_history_id : M (option Z) :=
  if negb (datastore_client cfg) then mret None
  else read entity.

Definition save_last_history_id (history_id : json) : M unit :=
  if negb (datastore_client cfg) then mret tt
  else
    n ← lift (py_int history_id);
    modify (set_entity n);;
    modify (add_call (DatastorePut n)).

(** *** Main processing function *)

(** [msg and 'id' in msg and 'INBOX' in msg.get('labelIds', [])]: the
    identifier of an added message that carries the INBOX label.  An absent
    ['message'] is the empty dict, which is false. *)
Definition inbox_message_id (msg_added : message_added) : option string :=
  match message msg_added with
  | Some msg =>
      match id msg with
      | Some i => if bool_decide ("INBOX" ∈ labelIds msg) then Some i else None
      | None => None
      end
  | None => None
  end.

(** The two nested loops that fill the set [message_ids]. *)
Definition collect_message_ids (changes : list change) : gset string :=
  foldl (λ message_ids change,
           foldl (λ message_ids msg_added,
                    match inbox_message_id msg_added with
                    | Some i => message_ids ∪ {[ i ]}
                    | None => message_ids
                    end)
                 message_ids (messagesAdded change))
        ∅ changes.

(** The body of [for i, part in enumerate(parts)]. *)
Definition process_part (service : gmail_service) (msg_id : string)
    (i : nat) (part : message_part) : M unit :=
  match nonempty_str (filename part) with
  | Some filename =>
      let content_type := default "application/octet-stream" (mimeType part) in
      match nonempty_str (body part ≫= attachmentId) with
      | Some attachment_id =>
          try_except
            (attachment_data ← get_attachment service msg_id attachment_id;
             match attachment_data with
             | Some (b :: bs) =>
                 let sane_filename := sanitize_filename (Some filename) in
                 let name := destination_blob_name msg_id i sane_filename in
                 upload_to_gcs name (b :: bs) content_type;;
                 mret tt
             | _ => mret tt
             end)
            is_Exception
            (λ _, mret tt)
      | None => mret tt
      end
  | None => mret tt
  end.

(** The body of [for msg_id in message_ids]. *)
Definition process_message (service : gmail_service) (msg_id : string) : M unit :=
  message ← get_message service msg_id;
  match message with
  | Some message =>
      for_each (enumerate_from 0 (parts message))
               (λ ip, process_part service msg_id ip.1 ip.2)
  | None => mret tt
  end.

(** The part of [process_new_mail] that follows the history request: [hist]
    is the response and [start_history_id] the stored cursor it was asked
    from. *)
Definition process_history (service : gmail_service) (start_history_id : Z)
    (hist : history_response) : M unit :=
  let new_history_id := default (JNum start_history_id) (historyId hist) in
  let changes := history hist in
  match changes with
  | [] =>
      n ← lift (py_int new_history_id);
      if (start_history_id <? n)%Z
      then save_last_history_id new_history_id
      else mret tt
  | _ =>
      let message_ids := collect_message_ids changes in
      for_each (set_order rt message_ids) (process_message service);;
      save_last_history_id new_history_id
  end.

Definition process_new_mail (service : gmail_service)
    (current_history_id_from_pubsub : json) : M unit :=
  if negb (datastore_client cfg) then raise RuntimeError
  else
    last_processed_history_id ← get_last_history_id;
    match last_processed_history_id with
    | None | Some 0%Z =>
        save_last_history_id current_history_id_from_pubsub
    | Some start_history_id =>
        current_history_id ← lift (py_int current_history_id_from_pubsub);
        if (current_history_id <=? start_history_id)%Z then mret tt
        else
          hist ← try_except
                   (modify (add_call (HistoryList start_history_id));;
                    lift (history_list service start_history_id))
                   is_HttpError
                   (λ error, raise error);
          process_history service start_history_id hist
    end.

(** *** Pub/Sub push endpoint *)

(** [email_address != TARGET_USER_EMAIL], where the right-hand side is a
    string or [None]. *)
Definition differs_from_target (email_address : json) : bool :=
  match email_address, TARGET_USER_EMAIL cfg with
  | JStr s, Some t => negb (String.eqb s t)
  | JNull, None => false
  | _, _ => true
  end.

(** [base64.b64decode(data_b64).decode('utf-8')], then [json.loads]. *)
Definition decode_notification (data_b64 : json) : res json :=
  match data_b64 with
  | JStr s =>
      match b64decode rt s with
      | Ok raw =>
          match utf8_decode rt raw with
          | Ok data_str => json_loads rt data_str
          | Raise e => Raise e
          end
      | Raise e => Raise e
      end
  | _ => Raise TypeError
  end.

(** The view function.  [envelope] is what [request.get_json()] returned
    and [service] what [get_gmail_service] returns; the result is the
    status code of the response. *)
Definition process_pubsub_push (envelope : json) (service : option gmail_service) : M Z :=
  if negb (datastore_client cfg) || negb (storage_client cfg) then mret 500%Z
  else if negb (truthy envelope) then mret 400%Z
  else
    pubsub_message ← lift (py_get envelope "message");
    if negb (truthy pubsub_message) then mret 400%Z
    else
      lift (py_get pubsub_message "messageId");;
      try_except
        (if py_in "data" pubsub_message then
           let data_b64 := py_item pubsub_message "data" in
           notification ← lift (decode_notification data_b64);
           email_address ← lift (py_get notification "emailAddress");
           history_id ← lift (py_get notification "historyId");
           if differs_from_target email_address then mret 204%Z
           else
             match service with
             | None => mret 500%Z
             | Some service =>
                 process_new_mail service history_id;;
                 mret 204%Z
             end
         else mret 400%Z)
        is_Exception
        (λ e, if is_JSONDecodeError e then mret 400%Z else mret 500%Z).

(** The status sent for the outcome of the view once [request.get_json()]
    has returned the envelope: Flask answers an exception that leaves the
    view with 500.  A request that [get_json] itself refuses (a body that is
    not JSON, another content type) is answered by Flask before any line
    modelled here runs, with a status of its own. *)
Definition http_status (r : res Z) : Z :=
  match r with
  | Ok status => status
  | Raise _ => 500%Z
  end.

End App.

(** Notifications handled one after the other, each with the service object
    of its own request. *)
Definition run_passes (cfg : config) (rt : runtime)
    (notifications : list (gmail_service * json)) (w : world) : world :=
  foldl (λ w n, (process_new_mail cfg rt n.1 n.2 w).2) w notifications.

(** ** Observations on a run *)

(** Calls that leave for the mail provider or the bucket: everything but the
    Datastore write. *)
Definition is_provider_call (c : call) : bool :=
  match c with
  | DatastorePut _ => false
  | _ => true
  end.

(** The identifiers whose details were requested, in order. *)
Definition fetched_messages (cs : list call) : list string :=
  omap (λ c, match c with MessagesGet m => Some m | _ => None end) cs.

(** *** What a pass uploads

    A summary of the per-part code path as a function: the object that one
    part of a message ends up writing to the bucket, if any.  It follows
    [process_part] branch by branch and is related to it by
    [process_part_spec] below. *)

Section Uploads.

Variable cfg : config.
Variable rt : runtime.

(** The bytes [get_attachment] hands back; [None] also when the request or
    the decoding raised. *)
Definition fetched_attachment (service : gmail_service)
    (msg_id attachment_id : string) : option bytes :=
  match attachments_get service msg_id attachment_id with
  | Ok attachment =>
      match nonempty_str (data attachment) with
      | Some d =>
          match urlsafe_b64decode rt d with
          | Ok b => Some b
          | Raise _ => None
          end
      | None => None
      end
  | Raise _ => None
  end.

Definition part_upload (service : gmail_service) (msg_id : string)
    (ip : nat * message_part) : option (string * blob) :=
  match nonempty_str (filename ip.2) with
  | Some filename =>
      match nonempty_str (body ip.2 ≫= attachmentId) with
      | Some attachment_id =>
          match fetched_attachment service msg_id attachment_id with
          | Some (b :: bs) =>
              let name :=
                destination_blob_name msg_id ip.1 (sanitize_filename (Some filename)) in
              if storage_client cfg && gcs_upload_ok rt name
              then Some (name,
                         {| blob_data := b :: bs;
                            blob_content_type :=
                              default "application/octet-stream" (mimeType ip.2) |})
              else None
          | _ => None
          end
      | None => None
      end
  | None => None
  end.

(** The uploads of one message, in part order; none when its details could
    not be fetched. *)
Definition message_uploads (service : gmail_service) (msg_id : string)
    : list (string * blob) :=
  match messages_get service msg_id with
  | Ok message => omap (part_upload service msg_id) (enumerate_from 0 (parts message))
  | Raise _ => []
  end.

(** What is left of the outcome of the detail request once [get_message]
    has handled it: an [HttpError] is swallowed, any other exception goes
    on. *)
Definition detail_outcome (service : gmail_service) (msg_id : string) : res unit :=
  match messages_get service msg_id with
  | Ok _ => Ok tt
  | Raise e => if is_HttpError e then Ok tt else Raise e
  end.

End Uploads.

Definition apply_upload (up : option (string * blob)) (b : gmap string blob)
    : gmap string blob :=
  match up with
  | Some up => <[up.1 := up.2]> b
  | None => b
  end.

(** Writing a list of objects to a bucket, first to last. *)
Definition apply_uploads (ups : list (string * blob)) (b : gmap string blob)
    : gmap string blob :=
  foldl (λ b up, <[up.1 := up.2]> b) b ups.

(** *** Assumptions under which the cursor only grows *)

(** The provider never reports, together with change records, a [historyId]
    below the one it was asked from. *)
Definition keeps_up (rt : runtime) (service : gmail_service) : Prop :=
  ∀ s hist c,
    history_list service s = Ok hist → history hist ≠ [] →
    py_int rt (default (JNum s) (historyId hist)) = Ok c → (s ≤ c)%Z.

(** The notification carries a non-negative cursor, if it carries one. *)
Definition nonnegative_cursor (rt : runtime) (hid : json) : Prop :=
  ∀ n, py_int rt hid = Ok n → (0 ≤ n)%Z.

(** Order on stored cursors: an absent one is below everything. *)
Definition cursor_le (a b : option Z) : Prop :=
  match a, b with
  | None, _ => True
  | Some x, Some y => (x ≤ y)%Z
  | Some _, None => False
  end.

(** ** A concrete environment for examples

    [example_runtime] answers like the Python library on the few arguments
    the examples use (base64 text of three short documents, their UTF-8 and
    JSON readings, decimal digit strings) and with the library's error
    elsewhere. *)

Definition digit_value (c : ascii) : option Z :=
  if in_range "0" "9" c then Some (Z.of_N (N_of_ascii c) - 48)%Z else None.

Fixpoint decimal_value (acc : Z) (s : string) : option Z :=
  match s with
  | EmptyString => Some acc
  | String c s' =>
      match digit_value c with
      | Some d => decimal_value (10 * acc + d) s'
      | None => None
      end
  end.

Definition example_int_of_str (s : string) : res Z :=
  match s with
  | EmptyString => Raise ValueError
  | _ => match decimal_value 0 s with Some z => Ok z | None => Raise ValueError end
  end.

Definition example_runtime : runtime := {|
  b64decode s :=
    if String.eqb s "WzFd" then Ok [x5b; x31; x5d]
    else if String.eqb s "e30=" then Ok [x7b; x7d]
    else if String.eqb s "bm8=" then Ok [x6e; x6f]
    else Raise BinasciiError;
  urlsafe_b64decode s :=
    if String.eqb s "QQ==" then Ok [x41] else Raise BinasciiError;
  utf8_decode raw :=
    if bool_decide (raw = [x5b; x31; x5d]) then Ok "[1]"
    else if bool_decide (raw = [x7b; x7d]) then Ok "{}"
    else if bool_decide (raw = [x6e; x6f]) then Ok "no"
    else Raise UnicodeDecodeError;
  json_loads s :=
    if String.eqb s "[1]" then Ok (JArr [JNum 1])
    else if String.eqb s "{}" then Ok (JObj [])
    else Raise JSONDecodeError;
  int_of_str := example_int_of_str;
  set_order := elements;
  gcs_upload_ok _ := true;
|}.

Definition example_config : config := {|
  TARGET_USER_EMAIL := Some "inbox@example.com";
  datastore_client := true;
  storage_client := true;
|}.

Definition world_with (cursor : option Z) : world :=
  {| entity := cursor; bucket := ∅; calls := [] |}.

(** A provider whose requests all fail. *)
Definition failing_service : gmail_service := {|
  history_list _ := Raise HttpError;
  messages_get _ := Raise HttpError;
  attachments_get _ _ := Raise HttpError;
|}.

(** A provider that reports [historyId] 40 together with one change record
    that adds no message. *)
Definition lagging_service : gmail_service := {|
  history_list _ :=
    Ok {| historyId := Some (JStr "40"); history := [ {| messagesAdded := [] |} ] |};
  messages_get _ := Raise HttpError;
  attachments_get _ _ := Raise HttpError;
|}.

Definition report_part : message_part := {|
  filename := Some "report.pdf";
  mimeType := Some "application/pdf";
  body := Some {| attachmentId := Some "att-1" |};
|}.

Definition inbox_message (m : string) : message_added :=
  {| message := Some {| id := Some m; labelIds := ["UNREAD"; "INBOX"] |} |}.

(** A provider that reports [historyId] 70 and two new INBOX messages: the
    details of "m1" (one attachment) can be fetched, those of "m2" cannot. *)
Definition partly_failing_service : gmail_service := {|
  history_list _ :=
    Ok {| historyId := Some (JStr "70");
          history := [ {| messagesAdded := [inbox_message "m1"; inbox_message "m2"] |} ] |};
  messages_get m :=
    if String.eqb m "m1" then Ok {| parts := [report_part] |} else Raise HttpError;
  attachments_get _ _ := Ok {| data := Some "QQ==" |};
|}.

(** ** Further definitions

    Definitions used by the properties of the second part of the file: one
    more function of the module, predicates on requests and call logs, and
    concrete providers and requests for examples. *)

Definition not_slash (c : ascii) : bool := negb (Ascii.eqb c "/").

(** The calls of a pass, as far as the Datastore is concerned: either none
    of them is a write, or the last one is the only write and stores [n]. *)
Definition writes_at_most_once (cs : list call) (before after : option Z) : Prop :=
  (Forall (λ c, is_provider_call c = true) cs ∧ after = before)
  ∨ (∃ cs' n, cs = cs' ++ [DatastorePut n]
              ∧ Forall (λ c, is_provider_call c = true) cs'
              ∧ after = Some n).

(** *** Reading a push request

    [push_carries rt envelope notification]: the envelope is a dict whose
    ['message'] is a non-empty dict with a ['data'] entry that decodes to the
    JSON object [notification]. *)
Definition push_carries (rt : runtime) (envelope : json)
    (notification : list (string * json)) : Prop :=
  ∃ items fields d,
    envelope = JObj items
    ∧ dict_lookup "message" items = Some (JObj fields)
    ∧ fields ≠ []
    ∧ dict_lookup "data" fields = Some d
    ∧ decode_notification rt d = Ok (JObj notification).

(** [notification.get('emailAddress')] and [notification.get('historyId')]. *)
Definition notified_address (notification : list (string * json)) : json :=
  default JNull (dict_lookup "emailAddress" notification).

Definition notified_cursor (notification : list (string * json)) : json :=
  default JNull (dict_lookup "historyId" notification).

(** *** [get_gmail_service]

    What the function depends on: whether the key file is there, and what
    building the delegated service for a user gives (reading the
    credentials, [with_subject] and [build] may raise). *)
Record credentials_env := {
  key_file_exists : bool;
  build_service : option string → res gmail_service;
}.

Definition get_gmail_service (env : credentials_env) (user_email : option string)
    : M (option gmail_service) :=
  try_except
    (if negb (key_file_exists env) then raise (OtherError "FileNotFoundError")
     else
       service ← lift (build_service env user_email);
       mret (Some service))
    is_Exception
    (λ _, mret None).

(** The UTF-8 text of three notifications, as bytes: one for
    inbox@example.com with historyId 60, one for other@example.com with
    historyId 60, and one for inbox@example.com without historyId. *)
Definition target_notification_bytes : bytes :=
  [x7b; x22; x65; x6d; x61; x69; x6c; x41; x64; x64; x72; x65; x73; x73; x22; x3a;
   x20; x22; x69; x6e; x62; x6f; x78; x40; x65; x78; x61; x6d; x70; x6c; x65; x2e;
   x63; x6f; x6d; x22; x2c; x20; x22; x68; x69; x73; x74; x6f; x72; x79; x49; x64;
   x22; x3a; x20; x36; x30; x7d].

Definition foreign_notification_bytes : bytes :=
  [x7b; x22; x65; x6d; x61; x69; x6c; x41; x64; x64; x72; x65; x73; x73; x22; x3a;
   x20; x22; x6f; x74; x68; x65; x72; x40; x65; x78; x61; x6d; x70; x6c; x65; x2e;
   x63; x6f; x6d; x22; x2c; x20; x22; x68; x69; x73; x74; x6f; x72; x79; x49; x64;
   x22; x3a; x20; x36; x30; x7d].

Definition incomplete_notification_bytes : bytes :=
  [x7b; x22; x65; x6d; x61; x69; x6c; x41; x64; x64; x72; x65; x73; x73; x22; x3a;
   x20; x22; x69; x6e; x62; x6f; x78; x40; x65; x78; x61; x6d; x70; x6c; x65; x2e;
   x63; x6f; x6d; x22; x7d].

(** A runtime that decodes the base64 text of these three notifications as
    Python does, and answers like [example_runtime] elsewhere. *)
Definition mail_runtime : runtime := {|
  b64decode s :=
    if String.eqb s "eyJlbWFpbEFkZHJlc3MiOiAiaW5ib3hAZXhhbXBsZS5jb20iLCAiaGlzdG9yeUlkIjogNjB9"
    then Ok target_notification_bytes
    else if String.eqb s "eyJlbWFpbEFkZHJlc3MiOiAib3RoZXJAZXhhbXBsZS5jb20iLCAiaGlzdG9yeUlkIjogNjB9"
    then Ok foreign_notification_bytes
    else if String.eqb s "eyJlbWFpbEFkZHJlc3MiOiAiaW5ib3hAZXhhbXBsZS5jb20ifQ=="
    then Ok incomplete_notification_bytes
    else b64decode example_runtime s;
  urlsafe_b64decode := urlsafe_b64decode example_runtime;
  utf8_decode raw :=
    if bool_decide (raw = target_notification_bytes
                    ∨ raw = foreign_notification_bytes
                    ∨ raw = incomplete_notification_bytes)
    then Ok (string_of_list_byte raw)
    else utf8_decode example_runtime raw;
  json_loads s :=
    if String.eqb s (string_of_list_byte target_notification_bytes)
    then Ok (JObj [("emailAddress", JStr "inbox@example.com"); ("historyId", JNum 60)])
    else if String.eqb s (string_of_list_byte foreign_notification_bytes)
    then Ok (JObj [("emailAddress", JStr "other@example.com"); ("historyId", JNum 60)])
    else if String.eqb s (string_of_list_byte incomplete_notification_bytes)
    then Ok (JObj [("emailAddress", JStr "inbox@example.com")])
    else json_loads example_runtime s;
  int_of_str := example_int_of_str;
  set_order := elements;
  gcs_upload_ok _ := true;
|}.

(** Push bodies carrying these notifications. *)
Definition push_body (data_b64 : string) : json :=
  JObj [("message", JObj [("data", JStr data_b64); ("messageId", JStr "1")]);
        ("subscription", JStr "projects/p/subscriptions/s")].

Definition target_push : json :=
  push_body "eyJlbWFpbEFkZHJlc3MiOiAiaW5ib3hAZXhhbXBsZS5jb20iLCAiaGlzdG9yeUlkIjogNjB9".

Definition foreign_push : json :=
  push_body "eyJlbWFpbEFkZHJlc3MiOiAib3RoZXJAZXhhbXBsZS5jb20iLCAiaGlzdG9yeUlkIjogNjB9".

Definition incomplete_push : json :=
  push_body "eyJlbWFpbEFkZHJlc3MiOiAiaW5ib3hAZXhhbXBsZS5jb20ifQ==".

Definition target_notification : list (string * json) :=
  [("emailAddress", JStr "inbox@example.com"); ("historyId", JNum 60)].

(** *** More providers and configurations *)

(** A provider with nothing new: [historyId] 55 and no change record. *)
Definition quiet_service : gmail_service := {|
  history_list _ := Ok {| historyId := Some (JStr "55"); history := [] |};
  messages_get _ := Raise HttpError;
  attachments_get _ _ := Raise HttpError;
|}.

(** A provider whose detail request for "m2" breaks the connection. *)
Definition broken_service : gmail_service := {|
  history_list _ :=
    Ok {| historyId := Some (JStr "70");
          history := [ {| messagesAdded := [inbox_message "m1"; inbox_message "m2"] |} ] |};
  messages_get m :=
    if String.eqb m "m1" then Ok {| parts := [report_part] |}
    else Raise (OtherError "TimeoutError");
  attachments_get _ _ := Ok {| data := Some "QQ==" |};
|}.

(** A provider that is always ten history records ahead of the cursor it is
    asked from, with a change record that adds no message. *)
Definition advancing_service : gmail_service := {|
  history_list s :=
    Ok {| historyId := Some (JNum (s + 10)); history := [ {| messagesAdded := [] |} ] |};
  messages_get _ := Raise HttpError;
  attachments_get _ _ := Raise HttpError;
|}.

Definition config_without_storage : config := {|
  TARGET_USER_EMAIL := Some "inbox@example.com";
  datastore_client := true;
  storage_client := false;
|}.

(** The object names handed to the bucket, in order. *)
Definition uploaded_names (cs : list call) : list string :=
  omap (λ c, match c with BlobUpload name => Some name | _ => None end) cs.

(** A message with two attachments of the same file name. *)
Definition twin_part (attachment_id : string) : message_part := {|
  filename := Some "report.pdf";
  mimeType := Some "application/pdf";
  body := Some {| attachmentId := Some attachment_id |};
|}.

Definition twin_service : gmail_service := {|
  history_list _ := Raise HttpError;
  messages_get _ := Ok {| parts := [twin_part "att-1"; twin_part "att-2"] |};
  attachments_get _ _ := Ok {| data := Some "QQ==" |};
|}.

(** A provider whose history request is answered with a body that is not
    JSON, which the client library reports as a [JSONDecodeError]. *)
Definition garbled_service : gmail_service := {|
  history_list _ := Raise JSONDecodeError;
  messages_get _ := Raise HttpError;
  attachments_get _ _ := Raise HttpError;
|}.

(** * Properties *)

(** ** Strings *)

Module Str.

(** Concatenation is declared [simpl never]; these equations unfold it. *)
Lemma app_nil_l (s : string) : "" +:+ s = s.
Proof. reflexivity. Qed.

Lemma app_cons (c : ascii) (s t : string) : String c s +:+ t = String c (s +:+ t).
Proof. reflexivity. Qed.

Lemma app_nil_r (s : string) : s +:+ "" = s.
Proof. induction s as [|c s IH]; [done|]. by rewrite app_cons, IH. Qed.

Lemma app_assoc (s1 s2 s3 : string) : (s1 +:+ s2) +:+ s3 = s1 +:+ (s2 +:+ s3).
Proof. induction s1 as [|c s1 IH]; [done|]. by rewrite !app_cons, IH. Qed.

Lemma all_app p s1 s2 :
  string_all p (s1 +:+ s2) = string_all p s1 && string_all p s2.
Proof.
  induction s1 as [|c s1 IH]; [done|].
  rewrite app_cons. simpl. by rewrite IH, andb_assoc.
Qed.

(** A property of all characters passes to any piece of the string. *)
Lemma all_infix p a s b :
  string_all p (a +:+ s +:+ b) = true → string_all p s = true.
Proof.
  rewrite !all_app. intros H.
  apply andb_prop in H as [_ H]. by apply andb_prop in H as [H _].
Qed.

(** Two strings that agree after a prefix free of the character [d],
    each followed by [d], have the same prefix. *)
Lemma split_at_first (d : ascii) (a b s t : string) :
  string_all (λ c, negb (Ascii.eqb c d)) a = true →
  string_all (λ c, negb (Ascii.eqb c d)) b = true →
  a +:+ String d s = b +:+ String d t →
  a = b ∧ s = t.
Proof.
  revert b. induction a as [|x a IH]; intros [|y b];
    rewrite ?app_cons, ?app_nil_l; simpl; intros Ha Hb Heq.
  - by inversion Heq.
  - inversion Heq; subst y. rewrite Ascii.eqb_refl in Hb. done.
  - inversion Heq; subst x. rewrite Ascii.eqb_refl in Ha. done.
  - apply andb_prop in Ha as [_ Ha]. apply andb_prop in Hb as [_ Hb].
    inversion Heq; subst. destruct (IH b Ha Hb) as [-> ->]; done.
Qed.

(** [lstrip] keeps a suffix, [rstrip] a prefix. *)
Lemma lstrip_suffix p s : ∃ a, s = a +:+ lstrip p s.
Proof.
  induction s as [|c s [a IH]]; simpl.
  - by exists "".
  - destruct (p c); [|by exists ""].
    exists (String c a). by rewrite app_cons, <-IH.
Qed.

Lemma rstrip_prefix p s : ∃ b, s = rstrip p s +:+ b.
Proof.
  induction s as [|c s [b IH]]; simpl.
  - by exists "".
  - destruct (rstrip p s) as [|c' r] eqn:Hr.
    + destruct (p c).
      * by exists (String c s).
      * exists b. rewrite app_cons. by rewrite app_nil_l in IH; subst b.
    + exists b. by rewrite app_cons, <-IH.
Qed.

Lemma strip_infix p s : ∃ a b, s = a +:+ strip p s +:+ b.
Proof.
  destruct (lstrip_suffix p s) as [a Ha].
  destruct (rstrip_prefix p (lstrip p s)) as [b Hb].
  exists a, b. unfold strip. by rewrite <-Hb.
Qed.

(** What [lstrip] leaves does not start with a stripped character. *)
Lemma lstrip_head p s c r : lstrip p s = String c r → p c = false.
Proof.
  induction s as [|x s IH]; simpl; [done|].
  destruct (p x) eqn:Hx; [done|]. by intros [= <- _].
Qed.

(** [rstrip] does not touch the first character it keeps. *)
Lemma rstrip_head p x s c r : rstrip p (String x s) = String c r → c = x.
Proof.
  simpl. destruct (rstrip p s); [destruct (p x)|]; by intros [= <-].
Qed.

(** What [rstrip] leaves does not end with a stripped character. *)
Lemma rstrip_last p s r c : rstrip p s = r +:+ String c "" → p c = false.
Proof.
  revert r. induction s as [|x s IH]; intros r; simpl.
  - by destruct r.
  - destruct (rstrip p s) as [|y t] eqn:Ht.
    + destruct (p x) eqn:Hx; [by destruct r|].
      destruct r as [|z [|??]]; rewrite ?app_cons, ?app_nil_l; [|done..].
      by intros [= <-].
    + destruct r as [|z r]; rewrite ?app_cons, ?app_nil_l; [done|].
      intros [= <- Heq]. by apply (IH r).
Qed.

Lemma strip_head p s c r : strip p s = String c r → p c = false.
Proof.
  unfold strip. destruct (lstrip p s) as [|x t] eqn:Hl; [done|].
  intros ->%rstrip_head. by eapply lstrip_head.
Qed.

Lemma strip_last p s r c : strip p s = r +:+ String c "" → p c = false.
Proof. apply rstrip_last. Qed.

End Str.

(** ** [sanitize_filename] *)

Module Sanitize.

Lemma has_double_underscore_infix a b :
  has_double_underscore (a +:+ "__" +:+ b) = true.
Proof.
  induction a as [|c a IH]; [done|].
  rewrite Str.app_cons.
  destruct (a +:+ "__" +:+ b) as [|c' t] eqn:Ht; [by destruct a|].
  simpl. simpl in IH. rewrite IH. apply orb_true_r.
Qed.

Lemma has_double_underscore_false_infix a s b :
  has_double_underscore (a +:+ s +:+ b) = false → has_double_underscore s = false.
Proof.
  intros H. destruct (has_double_underscore s) eqn:Hs; [|done].
  assert (∃ x y, s = x +:+ "__" +:+ y) as (x & y & ->).
  { clear H. induction s as [|c s IH]; [done|].
    destruct s as [|c' s']; [done|].
    simpl in Hs. apply orb_prop in Hs as [Hs|Hs].
    - apply andb_prop in Hs as [->%Ascii.eqb_eq ->%Ascii.eqb_eq].
      by exists "", s'.
    - destruct (IH Hs) as (x & y & Hxy).
      exists (String c x), y. by rewrite Str.app_cons, <-Hxy. }
  rewrite <-H. symmetry.
  rewrite !Str.app_assoc, <-(Str.app_assoc a x).
  apply has_double_underscore_infix.
Qed.

Lemma safe_char_underscore : safe_char "_" = true.
Proof. reflexivity. Qed.

Lemma replace_unsafe_safe s : string_all safe_char (replace_unsafe s) = true.
Proof.
  induction s as [|c s IH]; simpl; [done|].
  rewrite IH, andb_true_r.
  destruct (safe_char c) eqn:Hc; [done | apply safe_char_underscore].
Qed.

(** Collapsing keeps the first character. *)
Lemma collapse_underscores_head c s :
  ∃ t, collapse_underscores (String c s) = String c t.
Proof.
  revert c. induction s as [|c' s IH]; intros c; simpl; [by eexists|].
  destruct (Ascii.eqb c "_" && Ascii.eqb c' "_") eqn:Hcc; [|by eexists].
  apply andb_prop in Hcc as [->%Ascii.eqb_eq ->%Ascii.eqb_eq].
  apply IH.
Qed.

Lemma collapse_underscores_all p s :
  string_all p s = true → string_all p (collapse_underscores s) = true.
Proof.
  induction s as [|c s IH]; [done|].
  intros [Hc Hs]%andb_prop. specialize (IH Hs).
  destruct s as [|c' s']; [by simpl; rewrite Hc|].
  change (collapse_underscores (String c (String c' s')))
    with (if Ascii.eqb c "_" && Ascii.eqb c' "_"
          then collapse_underscores (String c' s')
          else String c (collapse_underscores (String c' s'))).
  destruct (Ascii.eqb c "_" && Ascii.eqb c' "_"); [done|].
  change (string_all p (String c ?t)) with (p c && string_all p t).
  by rewrite Hc, IH.
Qed.

Lemma collapse_underscores_no_double s :
  has_double_underscore (collapse_underscores s) = false.
Proof.
  induction s as [|c s IH]; [done|].
  destruct s as [|c' s']; [done|].
  change (collapse_underscores (String c (String c' s')))
    with (if Ascii.eqb c "_" && Ascii.eqb c' "_"
          then collapse_underscores (String c' s')
          else String c (collapse_underscores (String c' s'))).
  destruct (Ascii.eqb c "_" && Ascii.eqb c' "_") eqn:Hcc; [done|].
  destruct (collapse_underscores_head c' s') as [t Ht].
  rewrite Ht in IH |- *. simpl. simpl in IH. by rewrite Hcc, IH.
Qed.

(** The rewritten name, before the fallback: safe characters only, no two
    adjacent underscores, no separator at either end. *)
Lemma sanitized_form_all_safe f : string_all safe_char (sanitized_form f) = true.
Proof.
  unfold sanitized_form.
  destruct (Str.strip_infix strip_char (collapse_underscores (replace_unsafe f)))
    as (a & b & Hab).
  apply (Str.all_infix _ a _ b). rewrite <-Hab.
  apply collapse_underscores_all, replace_unsafe_safe.
Qed.

Lemma sanitized_form_no_double f : has_double_underscore (sanitized_form f) = false.
Proof.
  unfold sanitized_form.
  destruct (Str.strip_infix strip_char (collapse_underscores (replace_unsafe f)))
    as (a & b & Hab).
  apply (has_double_underscore_false_infix a _ b). rewrite <-Hab.
  apply collapse_underscores_no_double.
Qed.

Lemma well_formed_sanitized_form f :
  sanitized_form f ≠ "" → well_formed_name (sanitized_form f).
Proof.
  intros Hne. split_and!; [done|apply sanitized_form_all_safe|..].
  - intros s1 s2 Heq.
    pose proof (sanitized_form_no_double f) as Hd.
    rewrite Heq, has_double_underscore_infix in Hd. done.
  - intros c s. apply Str.strip_head.
  - intros s c. apply Str.strip_last.
Qed.

Lemma last_char_snoc s c : last_char (s +:+ String c "") = Some c.
Proof.
  induction s as [|x s IH]; [done|].
  rewrite Str.app_cons. simpl. rewrite IH.
  by destruct (s +:+ String c "") eqn:E; [destruct s|].
Qed.

Lemma well_formed_by_computation r :
  negb (String.eqb r "") && string_all safe_char r
  && negb (has_double_underscore r)
  && match r with String c _ => negb (strip_char c) | _ => true end
  && match last_char r with Some c => negb (strip_char c) | None => true end = true →
  well_formed_name r.
Proof.
  intros H. repeat (apply andb_prop in H as [H ?]).
  split_and!.
  - intros ->. done.
  - done.
  - intros s1 s2 ->. by rewrite has_double_underscore_infix in *.
  - intros c s ->. by apply negb_true_iff.
  - intros s c ->. rewrite last_char_snoc in *. by apply negb_true_iff.
Qed.

End Sanitize.

(** C7.  For every input, [sanitize_filename] returns a non-empty string made
    of characters of [[A-Za-z0-9_.-]] only, with no two adjacent underscores
    and no character of [_.-] at either end.  An absent or empty input gives
    the placeholder "unnamed_attachment"; a non-empty input whose rewritten
    form is empty gives the other placeholder, "attachment". *)
Theorem sanitize_filename_correct (filename : option string) :
  well_formed_name (sanitize_filename filename)
  ∧ (filename = None ∨ filename = Some "" →
     sanitize_filename filename = "unnamed_attachment")
  ∧ (∀ f, filename = Some f → f ≠ "" → sanitized_form f = "" →
     sanitize_filename filename = "attachment")
  ∧ "unnamed_attachment" ≠ "attachment".
Proof.
  split_and!.
  - destruct filename as [[|c f]|];
      [by apply Sanitize.well_formed_by_computation..| |
       by apply Sanitize.well_formed_by_computation].
    unfold sanitize_filename.
    destruct (sanitized_form (String c f)) as [|c' r] eqn:Hs.
    + by apply Sanitize.well_formed_by_computation.
    + rewrite <-Hs. apply Sanitize.well_formed_sanitized_form. by rewrite Hs.
  - by intros [-> | ->].
  - intros [|c f] -> Hne Hs; [done|].
    unfold sanitize_filename. by rewrite Hs.
  - done.
Qed.

(** ** Blob names *)

Module BlobName.

Lemma pretty_N_char_not_underscore x : not_underscore (pretty_N_char x) = true.
Proof. unfold pretty_N_char. by repeat case_match. Qed.

(** The decimal digits written by [pretty] hold no underscore. *)
Lemma pretty_N_go_not_underscore x s :
  string_all not_underscore s = true →
  string_all not_underscore (pretty_N_go x s) = true.
Proof.
  revert s. induction (N.lt_wf_0 x) as [x _ IH]; intros s Hs.
  assert (x = 0 ∨ 0 < x)%N as [->|Hx] by lia.
  - by rewrite pretty_N_go_0.
  - rewrite pretty_N_go_step by done. apply IH.
    + by apply N.div_lt.
    + simpl. by rewrite pretty_N_char_not_underscore, Hs.
Qed.

Lemma pretty_nat_not_underscore (i : nat) :
  string_all not_underscore (pretty i) = true.
Proof.
  unfold pretty, pretty_nat, pretty, pretty_N.
  case_decide; [done|]. by apply pretty_N_go_not_underscore.
Qed.

(** The index can be read back from the part of the name after the slash. *)
Lemma index_name_inj (i j : nat) (f1 f2 : string) :
  pretty i +:+ "_" +:+ f1 = pretty j +:+ "_" +:+ f2 → i = j ∧ f1 = f2.
Proof.
  intros Heq.
  apply (Str.split_at_first "_") in Heq as [Hij Hf];
    [|apply pretty_nat_not_underscore..].
  split; [by apply (inj pretty)|done].
Qed.

End BlobName.

(** Names built for one message with two different indices differ,
    whatever the file names are (the same name included): the index written
    before the first underscore tells them apart. *)
Theorem destination_blob_name_unique (msg_id : string) (i j : nat)
    (f1 f2 : option string) :
  i ≠ j →
  destination_blob_name msg_id i (sanitize_filename f1)
  ≠ destination_blob_name msg_id j (sanitize_filename f2).
Proof.
  intros Hij Heq. unfold destination_blob_name in Heq.
  apply (inj (String.app msg_id)), (inj (String.app "/")) in Heq.
  by apply BlobName.index_name_inj in Heq as [? _].
Qed.

Lemma destination_blob_name_unique_witness :
  0 ≠ 1
  ∧ destination_blob_name "18c2f" 0 (sanitize_filename (Some "report.pdf"))
    ≠ destination_blob_name "18c2f" 1 (sanitize_filename (Some "report.pdf")).
Proof.
  split; [lia|].
  apply (destination_blob_name_unique "18c2f" 0 1); lia.
Defined.

(** ** The monad *)

(** Unfold the monadic operations of a computation applied to a state. *)
Ltac run_monad :=
  unfold mbind, M_bind, mret, M_ret, lift, modify, read, raise, try_except;
  simpl.

Lemma bind_ok {A B} (m : M A) (f : A → M B) w a w' :
  m w = (Ok a, w') → (m ≫= f) w = f a w'.
Proof. intros H. unfold mbind, M_bind. by rewrite H. Qed.

Lemma bind_raise {A B} (m : M A) (f : A → M B) w e w' :
  m w = (Raise e, w') → (m ≫= f) w = (Raise e, w').
Proof. intros H. unfold mbind, M_bind. by rewrite H. Qed.

(** ** Cursor handling in [process_new_mail] *)

Section Cursor.

Variable cfg : config.
Variable rt : runtime.
Hypothesis datastore_ready : datastore_client cfg = true.

Lemma save_last_history_id_ok history_id n w :
  py_int rt history_id = Ok n →
  save_last_history_id cfg rt history_id w
  = (Ok tt, add_call (DatastorePut n) (set_entity n w)).
Proof.
  intros Hn. unfold save_last_history_id. rewrite datastore_ready. run_monad.
  by rewrite Hn.
Qed.

(** A falsy stored value ([None] or [0]) sends the pass to the first-run
    branch. *)
Lemma process_new_mail_first_run service hid n w :
  entity w = None ∨ entity w = Some 0%Z →
  py_int rt hid = Ok n →
  process_new_mail cfg rt service hid w
  = (Ok tt, add_call (DatastorePut n) (set_entity n w)).
Proof.
  intros Hw Hn. unfold process_new_mail, get_last_history_id.
  rewrite datastore_ready. simpl.
  rewrite (bind_ok _ _ w (entity w) w) by done.
  destruct Hw as [-> | ->]; by apply save_last_history_id_ok.
Qed.

(** A notification not newer than a non-zero stored cursor is skipped. *)
Lemma process_new_mail_stale service hid s n w :
  entity w = Some s → s ≠ 0%Z → py_int rt hid = Ok n → (n ≤ s)%Z →
  process_new_mail cfg rt service hid w = (Ok tt, w).
Proof.
  intros Hw Hs Hn Hle. unfold process_new_mail, get_last_history_id.
  rewrite datastore_ready. simpl.
  rewrite (bind_ok _ _ w (entity w) w) by done. rewrite Hw.
  destruct s as [|p|p]; [done|..]; run_monad; rewrite Hn;
    by rewrite (proj2 (Z.leb_le _ _) Hle).
Qed.

End Cursor.

(** C4.  With no stored cursor, the pass stores the notification's cursor and
    returns: the only call made is the Datastore write, so there is no
    history fetch, no message or attachment fetch and no upload. *)
Theorem baseline_on_empty cfg rt service hid n w :
  datastore_client cfg = true →
  entity w = None →
  py_int rt hid = Ok n →
  process_new_mail cfg rt service hid w
  = (Ok tt, {| entity := Some n; bucket := bucket w;
               calls := calls w ++ [DatastorePut n] |}).
Proof.
  intros Hds Hw Hn.
  by rewrite (process_new_mail_first_run cfg rt Hds service hid n w) by auto.
Qed.

Lemma baseline_on_empty_witness :
  datastore_client example_config = true
  ∧ entity (world_with None) = None
  ∧ py_int example_runtime (JNum 100) = Ok 100%Z
  ∧ process_new_mail example_config example_runtime failing_service (JNum 100)
      (world_with None)
    = (Ok tt, {| entity := Some 100%Z; bucket := ∅; calls := [DatastorePut 100] |}).
Proof.
  split_and!; [reflexivity..|].
  apply (baseline_on_empty example_config example_runtime failing_service
           (JNum 100) 100 (world_with None)); reflexivity.
Defined.

(** C10.  A stored cursor equal to 0 is read as absent: the pass overwrites
    it with the notification's cursor and makes no other call, whatever the
    notification's cursor is; the comparison with 0 is never made. *)
Theorem zero_cursor_is_absent cfg rt service hid n w :
  datastore_client cfg = true →
  entity w = Some 0%Z →
  py_int rt hid = Ok n →
  process_new_mail cfg rt service hid w
  = (Ok tt, {| entity := Some n; bucket := bucket w;
               calls := calls w ++ [DatastorePut n] |}).
Proof.
  intros Hds Hw Hn.
  by rewrite (process_new_mail_first_run cfg rt Hds service hid n w) by auto.
Qed.

Lemma zero_cursor_is_absent_witness :
  datastore_client example_config = true
  ∧ entity (world_with (Some 0%Z)) = Some 0%Z
  ∧ py_int example_runtime (JNum 7) = Ok 7%Z
  ∧ process_new_mail example_config example_runtime failing_service (JNum 7)
      (world_with (Some 0%Z))
    = (Ok tt, {| entity := Some 7%Z; bucket := ∅; calls := [DatastorePut 7] |}).
Proof.
  split_and!; [reflexivity..|].
  apply (zero_cursor_is_absent example_config example_runtime failing_service
           (JNum 7) 7 (world_with (Some 0%Z))); reflexivity.
Defined.

(** C3.  For a stored cursor [s] and a notification cursor [n] with
    [0 ≤ n ≤ s], the pass completes, the stored cursor is still [s], the
    bucket is untouched and no call leaves for the provider or the bucket
    (for [s = 0] the first-run branch writes the same value 0 again). *)
Theorem stale_notification_is_noop cfg rt service hid s n w :
  datastore_client cfg = true →
  entity w = Some s →
  py_int rt hid = Ok n →
  (0 ≤ n ≤ s)%Z →
  ∃ w', process_new_mail cfg rt service hid w = (Ok tt, w')
        ∧ entity w' = Some s
        ∧ bucket w' = bucket w
        ∧ ∃ cs, calls w' = calls w ++ cs
                ∧ Forall (λ c, is_provider_call c = false) cs.
Proof.
  intros Hds Hw Hn [H0 Hle].
  destruct (decide (s = 0%Z)) as [->|Hs].
  - assert (n = 0%Z) as -> by lia.
    rewrite (process_new_mail_first_run cfg rt Hds service hid 0%Z w) by auto.
    eexists. split_and!; [done..|].
    exists [DatastorePut 0]. split; [done|]. by repeat constructor.
  - rewrite (process_new_mail_stale cfg rt Hds service hid s n w) by done.
    exists w. split_and!; [done..|].
    exists []. split; [by rewrite app_nil_r|constructor].
Qed.

Lemma stale_notification_is_noop_witness :
  datastore_client example_config = true
  ∧ entity (world_with (Some 50%Z)) = Some 50%Z
  ∧ py_int example_runtime (JNum 40) = Ok 40%Z
  ∧ (0 ≤ 40 ≤ 50)%Z
  ∧ ∃ w', process_new_mail example_config example_runtime failing_service
            (JNum 40) (world_with (Some 50%Z)) = (Ok tt, w')
          ∧ entity w' = Some 50%Z
          ∧ bucket w' = bucket (world_with (Some 50%Z))
          ∧ ∃ cs, calls w' = calls (world_with (Some 50%Z)) ++ cs
                  ∧ Forall (λ c, is_provider_call c = false) cs.
Proof.
  split_and!; [reflexivity..|lia|lia|].
  apply (stale_notification_is_noop example_config example_runtime
           failing_service (JNum 40) 50 40 (world_with (Some 50%Z)));
    [reflexivity..|lia].
Defined.

Section Fetch.

Variable cfg : config.
Variable rt : runtime.
Hypothesis datastore_ready : datastore_client cfg = true.

(** A notification newer than a non-zero stored cursor asks the provider for
    the history since that cursor; an error of the request leaves the pass
    as it is, the handler raising it again. *)
Lemma process_new_mail_fresh service hid s n w :
  entity w = Some s → s ≠ 0%Z → py_int rt hid = Ok n → (s < n)%Z →
  process_new_mail cfg rt service hid w
  = match history_list service s with
    | Ok hist => process_history cfg rt service s hist (add_call (HistoryList s) w)
    | Raise e => (Raise e, add_call (HistoryList s) w)
    end.
Proof.
  intros Hw Hs Hn Hlt. unfold process_new_mail, get_last_history_id.
  rewrite datastore_ready. simpl.
  rewrite (bind_ok _ _ w (entity w) w) by done. rewrite Hw.
  destruct s as [|p|p]; [done|..]; run_monad; rewrite Hn;
    rewrite (proj2 (Z.leb_gt _ _) Hlt);
    destruct (history_list service _) as [hist|e]; try done;
    by destruct (is_HttpError e).
Qed.

End Fetch.

(** C2, as the code has it.  When the history request fails (an expired
    start cursor is answered with an error), the pass raises that error: the
    stored cursor keeps its value, no message is fetched, nothing is
    uploaded, and the only call made is the history request. *)
Theorem history_fetch_failure_is_fatal cfg rt service hid s n e w :
  datastore_client cfg = true →
  entity w = Some s → s ≠ 0%Z →
  py_int rt hid = Ok n → (s < n)%Z →
  history_list service s = Raise e →
  process_new_mail cfg rt service hid w
  = (Raise e, {| entity := Some s; bucket := bucket w;
                 calls := calls w ++ [HistoryList s] |}).
Proof.
  intros Hds Hw Hs Hn Hlt He.
  rewrite (process_new_mail_fresh cfg rt Hds service hid s n w) by done.
  rewrite He. unfold add_call. by rewrite Hw.
Qed.

Lemma history_fetch_failure_is_fatal_witness :
  datastore_client example_config = true
  ∧ entity (world_with (Some 50%Z)) = Some 50%Z ∧ 50%Z ≠ 0%Z
  ∧ py_int example_runtime (JNum 60) = Ok 60%Z ∧ (50 < 60)%Z
  ∧ history_list failing_service 50 = Raise HttpError
  ∧ process_new_mail example_config example_runtime failing_service (JNum 60)
      (world_with (Some 50%Z))
    = (Raise HttpError,
       {| entity := Some 50%Z; bucket := ∅; calls := [HistoryList 50] |}).
Proof.
  split_and!; [reflexivity|reflexivity|lia|reflexivity|lia|reflexivity|].
  apply (history_fetch_failure_is_fatal example_config example_runtime
           failing_service (JNum 60) 50 60 HttpError (world_with (Some 50%Z)));
    [reflexivity|reflexivity|lia|reflexivity|lia|reflexivity].
Defined.

(** C2 as stated fails: with cursor 50 stored, a notification for 60 and a
    provider that rejects the history request, the pass does not complete
    and the cursor is not reset. *)
Lemma rebaseline_on_expiry_counterexample :
  (process_new_mail example_config example_runtime failing_service (JNum 60)
     (world_with (Some 50%Z))).1 ≠ Ok tt
  ∧ entity (process_new_mail example_config example_runtime failing_service
              (JNum 60) (world_with (Some 50%Z))).2 = Some 50%Z.
Proof. split; [by vm_compute|reflexivity]. Qed.

(** C1 fails on the code.  Cursor 50 is stored, the notification carries 60,
    and the provider answers the history request with [historyId] 40 and a
    change record: the pass completes and stores 40. *)
Theorem cursor_regresses_on_lower_reported_id :
  process_new_mail example_config example_runtime lagging_service (JNum 60)
    (world_with (Some 50%Z))
  = (Ok tt, {| entity := Some 40%Z; bucket := ∅;
               calls := [HistoryList 50; DatastorePut 40] |}).
Proof. by vm_compute. Qed.

(** ** One pass over the new messages *)

Section Pass.

Variable cfg : config.
Variable rt : runtime.
Variable service : gmail_service.

Local Arguments sanitize_filename : simpl never.
Local Arguments destination_blob_name : simpl never.

Lemma fetched_messages_app cs1 cs2 :
  fetched_messages (cs1 ++ cs2) = fetched_messages cs1 ++ fetched_messages cs2.
Proof. apply omap_app. Qed.

(** A part never raises, leaves the cursor alone and writes at most the
    object [part_upload] names. *)
Lemma process_part_spec m ip w :
  ∃ cs, process_part cfg rt service m ip.1 ip.2 w
        = (Ok tt, {| entity := entity w;
                     bucket := apply_upload (part_upload cfg rt service m ip) (bucket w);
                     calls := calls w ++ cs |})
        ∧ fetched_messages cs = [].
Proof.
  destruct w as [en bk cs0]. destruct ip as [i part].
  unfold process_part, part_upload, fetched_attachment, get_attachment, upload_to_gcs.
  destruct (storage_client cfg) eqn:Hsc.
  all: run_monad.
  all: repeat (case_match; simplify_eq/=).
  all: unfold add_call, set_blob; simpl.
  all: rewrite <-?app_assoc; simpl.
  all: try (eexists; split; [reflexivity|reflexivity]).
  all: try (exists []; split; [by rewrite app_nil_r|reflexivity]).
Qed.

Lemma process_parts_spec m (l : list (nat * message_part)) w :
  ∃ cs, for_each l (λ ip, process_part cfg rt service m ip.1 ip.2) w
        = (Ok tt, {| entity := entity w;
                     bucket := apply_uploads (omap (part_upload cfg rt service m) l) (bucket w);
                     calls := calls w ++ cs |})
        ∧ fetched_messages cs = [].
Proof.
  revert w. induction l as [|ip l IH]; intros w.
  - exists []. split; [|done]. destruct w. simpl. by rewrite app_nil_r.
  - destruct (process_part_spec m ip w) as (cs1 & H1 & Hf1).
    simpl. rewrite (bind_ok _ _ _ _ _ H1).
    destruct (IH {| entity := entity w;
                    bucket := apply_upload (part_upload cfg rt service m ip) (bucket w);
                    calls := calls w ++ cs1 |}) as (cs2 & H2 & Hf2).
    rewrite H2. simpl. exists (cs1 ++ cs2). split.
    + rewrite app_assoc. f_equal. f_equal. simpl.
      by destruct (part_upload cfg rt service m ip).
    + by rewrite fetched_messages_app, Hf1, Hf2.
Qed.

(** A message whose details cannot be fetched changes nothing but the call
    log; otherwise its parts are handled in order. *)
Lemma process_message_spec m w :
  ∃ cs, process_message cfg rt service m w
        = (detail_outcome service m,
           {| entity := entity w;
              bucket := apply_uploads (message_uploads cfg rt service m) (bucket w);
              calls := calls w ++ MessagesGet m :: cs |})
        ∧ fetched_messages cs = [].
Proof.
  unfold process_message, get_message, detail_outcome, message_uploads.
  destruct (messages_get service m) as [msg|e] eqn:Hm.
  - destruct (process_parts_spec m (enumerate_from 0 (parts msg)) (add_call (MessagesGet m) w))
      as (cs & Hcs & Hf).
    exists cs. split; [|done].
    run_monad. simpl in Hcs. rewrite Hcs.
    by rewrite <-app_assoc.
  - exists []. split; [|done]. run_monad.
    by destruct (is_HttpError e).
Qed.

(** The loop over the collected identifiers stops only at a detail request
    that raises something else than [HttpError]; [seen] are the identifiers
    reached. *)
Lemma process_messages_spec (l : list string) w :
  ∃ seen cs r,
    for_each l (process_message cfg rt service) w
    = (r, {| entity := entity w;
             bucket := apply_uploads (seen ≫= message_uploads cfg rt service) (bucket w);
             calls := calls w ++ cs |})
    ∧ fetched_messages cs = seen
    ∧ seen `prefix_of` l
    ∧ (r = Ok tt → seen = l)
    ∧ ((∀ m, m ∈ l → detail_outcome service m = Ok tt) → r = Ok tt).
Proof.
  revert w. induction l as [|m l IH]; intros w.
  - exists [], [], (Ok tt). split_and!; try done.
    destruct w; simpl. by rewrite app_nil_r.
  - destruct (process_message_spec m w) as (cs1 & H1 & Hf1).
    simpl. destruct (detail_outcome service m) as [[]|e] eqn:Hd.
    + rewrite (bind_ok _ _ _ _ _ H1).
      match goal with |- context [for_each l _ ?w1] =>
        destruct (IH w1) as (seen & cs2 & r & H2 & Hf2 & Hpre & Hall & Hok) end.
      rewrite H2. simpl.
      exists (m :: seen), (MessagesGet m :: cs1 ++ cs2), r. split_and!.
      * f_equal. f_equal; [|by rewrite <-app_assoc].
        rewrite bind_cons. unfold apply_uploads. by rewrite foldl_app.
      * simpl. by rewrite fetched_messages_app, Hf1, Hf2.
      * by apply prefix_cons.
      * intros Hr. by rewrite Hall.
      * intros Hl. apply Hok. intros m' Hm'. apply Hl. by right.
    + rewrite (bind_raise _ _ _ _ _ H1).
      exists [m], (MessagesGet m :: cs1), (Raise e). split_and!.
      * f_equal. f_equal. simpl. by rewrite app_nil_r.
      * simpl. by rewrite Hf1.
      * by apply prefix_cons, prefix_nil.
      * done.
      * intros Hl. rewrite <-Hd. apply Hl. by left.
Qed.


(** Saving either fails on the conversion and changes nothing, or stores
    the converted value. *)
Lemma save_last_history_id_spec history_id w :
  ∃ r w', save_last_history_id cfg rt history_id w = (r, w')
          ∧ bucket w' = bucket w
          ∧ fetched_messages (calls w') = fetched_messages (calls w)
          ∧ (w' = w ∨ ∃ n, py_int rt history_id = Ok n ∧ r = Ok tt
                           ∧ entity w' = Some n).
Proof.
  unfold save_last_history_id.
  destruct (datastore_client cfg); run_monad.
  - destruct (py_int rt history_id) as [n|e].
    + eexists _, _. split_and!; [done|done| |right; by exists n].
      simpl. rewrite fetched_messages_app. simpl. by rewrite app_nil_r.
    + eexists _, _. split_and!; [done..|by left].
  - eexists _, _. split_and!; [done..|by left].
Qed.

Lemma process_history_changes s hist w :
  history hist ≠ [] →
  process_history cfg rt service s hist w
  = (for_each (set_order rt (collect_message_ids (history hist)))
       (process_message cfg rt service);;
     save_last_history_id cfg rt (default (JNum s) (historyId hist))) w.
Proof. unfold process_history. by destruct (history hist). Qed.

End Pass.

(** ** Collecting the message identifiers *)

Lemma inbox_message_id_Some msg_added m :
  inbox_message_id msg_added = Some m
  ↔ ∃ msg, message msg_added = Some msg ∧ id msg = Some m ∧ "INBOX" ∈ labelIds msg.
Proof.
  unfold inbox_message_id. split.
  - destruct (message msg_added) as [msg|]; [|done].
    destruct (id msg) as [i|] eqn:Hi; [|done].
    case_bool_decide; [|done]. intros [= ->]. by exists msg.
  - intros (msg & -> & -> & Hin). by rewrite bool_decide_eq_true_2.
Qed.

Lemma elem_of_collect_inner (l : list message_added) (acc : gset string) m :
  m ∈ foldl (λ message_ids msg_added,
               match inbox_message_id msg_added with
               | Some i => message_ids ∪ {[ i ]}
               | None => message_ids
               end) acc l
  ↔ m ∈ acc ∨ ∃ msg_added, msg_added ∈ l ∧ inbox_message_id msg_added = Some m.
Proof.
  revert acc. induction l as [|x l IH]; intros acc; simpl.
  - split; [by left|]. intros [?|(? & Hnil%elem_of_nil & _)]; done.
  - rewrite IH. split.
    + intros [Hacc|(y & Hy & Hm)].
      * destruct (inbox_message_id x) as [i|] eqn:Hx; [|by left].
        apply elem_of_union in Hacc as [?| ->%elem_of_singleton]; [by left|].
        right. exists x. split; [by left|done].
      * right. exists y. split; [by right|done].
    + intros [Hacc|(y & Hy & Hm)].
      * left. destruct (inbox_message_id x); [|done].
        apply elem_of_union. by left.
      * apply elem_of_cons in Hy as [->|Hy].
        -- left. rewrite Hm. apply elem_of_union. right. by apply elem_of_singleton.
        -- right. by exists y.
Qed.

Lemma elem_of_collect_outer (changes : list change) (acc : gset string) m :
  m ∈ foldl (λ message_ids change,
             foldl (λ message_ids msg_added,
                      match inbox_message_id msg_added with
                      | Some i => message_ids ∪ {[ i ]}
                      | None => message_ids
                      end)
                   message_ids (messagesAdded change)) acc changes
  ↔ m ∈ acc ∨ ∃ change msg_added, change ∈ changes ∧ msg_added ∈ messagesAdded change
                ∧ inbox_message_id msg_added = Some m.
Proof.
  revert acc. induction changes as [|c l IH]; intros acc; simpl.
  - split; [by left|]. intros [?|(? & ? & Hnil%elem_of_nil & _)]; done.
  - rewrite IH, elem_of_collect_inner. split.
    + intros [[?|(y & Hy & Hm)]|(c' & y & Hc & Hy & Hm)].
      * by left.
      * right. exists c, y. split_and!; [by left|done..].
      * right. exists c', y. split_and!; [by right|done..].
    + intros [?|(c' & y & Hc & Hy & Hm)]; [by left; left|].
      apply elem_of_cons in Hc as [->|Hc].
      * left. right. by exists y.
      * right. by exists c', y.
Qed.

Lemma elem_of_collect_message_ids changes m :
  m ∈ collect_message_ids changes
  ↔ ∃ change msg_added msg,
      change ∈ changes ∧ msg_added ∈ messagesAdded change
      ∧ message msg_added = Some msg ∧ id msg = Some m
      ∧ "INBOX" ∈ labelIds msg.
Proof.
  unfold collect_message_ids. rewrite elem_of_collect_outer. split.
  - intros [Hnil%elem_of_empty|(c & y & Hc & Hy & (msg & ?)%inbox_message_id_Some)];
      [done|].
    by exists c, y, msg.
  - intros (c & y & msg & Hc & Hy & Hmsg). right. exists c, y.
    split_and!; [done..|]. apply inbox_message_id_Some. by exists msg.
Qed.

(** C6.  The collected set holds exactly the identifiers of the added
    messages that carry the INBOX label, and, whatever the order in which
    the loop visits the set, the pass requests the details of each of them
    at most once: the identifiers requested are pairwise distinct members of
    the set, and all of it when the pass completes. *)
Theorem inbox_messages_fetched_once cfg rt service start hist w :
  visits_each_once rt →
  let ids := collect_message_ids (history hist) in
  let out := process_history cfg rt service start hist w in
  (∀ m, m ∈ ids
        ↔ ∃ change msg_added msg,
            change ∈ history hist ∧ msg_added ∈ messagesAdded change
            ∧ message msg_added = Some msg ∧ id msg = Some m
            ∧ "INBOX" ∈ labelIds msg)
  ∧ ∃ fetched,
      fetched_messages (calls out.2) = fetched_messages (calls w) ++ fetched
      ∧ NoDup fetched
      ∧ (∀ m, m ∈ fetched → m ∈ ids)
      ∧ (out.1 = Ok tt → ∀ m, m ∈ ids → m ∈ fetched).
Proof.
  intros Hord ids out. split; [apply elem_of_collect_message_ids|].
  subst out. destruct (history hist) as [|c l] eqn:Hh.
  - exists []. unfold process_history. rewrite Hh. run_monad.
    assert (ids = ∅) as -> by done.
    split_and!;
      [|apply NoDup_nil_2
       |intros m Hm; by apply elem_of_nil in Hm
       |intros _ m Hm; by apply elem_of_empty in Hm].
    rewrite app_nil_r.
    destruct (py_int rt _) as [n|e]; [|done]. simpl.
    destruct (start <? n)%Z; [|done].
    destruct (save_last_history_id_spec cfg rt (default (JNum start) (historyId hist)) w)
      as (r & w' & -> & _ & Hf & _). done.
  - rewrite process_history_changes by (rewrite Hh; done).
    rewrite Hh. fold ids.
    destruct (process_messages_spec cfg rt service (set_order rt ids) w)
      as (seen & cs & r & Hrun & Hf & Hpre & Hall & _).
    exists seen.
    assert (NoDup seen ∧ ∀ m, m ∈ seen → m ∈ ids) as [Hnd Hin].
    { destruct Hpre as [k Hk]. pose proof (NoDup_elements ids) as Hnd.
      rewrite <-(Hord ids), Hk in Hnd. apply NoDup_app in Hnd as (Hnd & _ & _).
      split; [done|]. intros m Hm. apply elem_of_elements.
      rewrite <-(Hord ids), Hk. apply elem_of_app. by left. }
    destruct r as [[]|e].
    + rewrite (bind_ok _ _ _ _ _ Hrun).
      match goal with |- context [save_last_history_id cfg rt ?h ?w1] =>
        destruct (save_last_history_id_spec cfg rt h w1)
          as (r' & w' & -> & _ & Hf' & _) end.
      simpl in *. rewrite Hf', fetched_messages_app, Hf.
      split_and!; [done..|].
      intros _ m Hm. rewrite Hall by done.
      rewrite (Hord ids). by apply elem_of_elements.
    + rewrite (bind_raise _ _ _ _ _ Hrun). simpl.
      rewrite fetched_messages_app, Hf. split_and!; done.
Qed.

Lemma inbox_messages_fetched_once_witness :
  let hist :=
    {| historyId := Some (JStr "70");
       history := [ {| messagesAdded := [inbox_message "m1"; inbox_message "m2"] |} ] |} in
  let ids := collect_message_ids (history hist) in
  let out := process_history example_config example_runtime partly_failing_service
               50 hist (world_with (Some 50%Z)) in
  visits_each_once example_runtime
  ∧ (∀ m, m ∈ ids
          ↔ ∃ change msg_added msg,
              change ∈ history hist ∧ msg_added ∈ messagesAdded change
              ∧ message msg_added = Some msg ∧ id msg = Some m
              ∧ "INBOX" ∈ labelIds msg)
  ∧ ∃ fetched,
      fetched_messages (calls out.2)
      = fetched_messages (calls (world_with (Some 50%Z))) ++ fetched
      ∧ NoDup fetched
      ∧ (∀ m, m ∈ fetched → m ∈ ids)
      ∧ (out.1 = Ok tt → ∀ m, m ∈ ids → m ∈ fetched).
Proof.
  split; [by intros s|].
  apply (inbox_messages_fetched_once example_config example_runtime
           partly_failing_service 50 _ (world_with (Some 50%Z))).
  by intros s.
Defined.

(** ** Failures inside a pass *)

(** Isolation of the failures that are handled.  Take a pass that reaches the message loop (the stored cursor [s] is
    not 0, the notification is newer, the history request answers with at
    least one change record and a convertible [historyId] [c]) and in which a
    detail request that fails does so with [HttpError].  Whatever detail and
    attachment requests fail, the pass completes, the details of every
    collected message are requested, the bucket receives the attachments of
    every part that could be fetched ([message_uploads] is empty for a
    message whose details failed and skips a part whose attachment failed),
    and the cursor is committed to [c]. *)
Theorem partial_failure_isolation cfg rt service hid s n hist c w :
  visits_each_once rt →
  datastore_client cfg = true →
  entity w = Some s → s ≠ 0%Z →
  py_int rt hid = Ok n → (s < n)%Z →
  history_list service s = Ok hist → history hist ≠ [] →
  py_int rt (default (JNum s) (historyId hist)) = Ok c →
  (∀ m e, m ∈ collect_message_ids (history hist) →
          messages_get service m = Raise e → e = HttpError) →
  ∃ w', process_new_mail cfg rt service hid w = (Ok tt, w')
        ∧ entity w' = Some c
        ∧ bucket w'
          = apply_uploads
              (set_order rt (collect_message_ids (history hist))
                 ≫= message_uploads cfg rt service)
              (bucket w)
        ∧ fetched_messages (calls w')
          = fetched_messages (calls w)
            ++ set_order rt (collect_message_ids (history hist)).
Proof.
  intros Hord Hds Hw Hs Hn Hlt Hhist Hne Hc Hhttp.
  rewrite (process_new_mail_fresh cfg rt Hds service hid s n w) by done.
  rewrite Hhist, process_history_changes by done.
  set (ids := collect_message_ids (history hist)) in *.
  destruct (process_messages_spec cfg rt service (set_order rt ids)
              (add_call (HistoryList s) w))
    as (seen & cs & r & Hrun & Hf & _ & Hall & Hok).
  assert (r = Ok tt) as ->.
  { apply Hok. intros m Hm. rewrite (Hord ids) in Hm.
    apply elem_of_elements in Hm. unfold detail_outcome.
    destruct (messages_get service m) as [msg|e] eqn:Hget; [done|].
    by rewrite (Hhttp m e Hm Hget). }
  rewrite (Hall eq_refl) in *.
  rewrite (bind_ok _ _ _ _ _ Hrun).
  rewrite (save_last_history_id_ok cfg rt Hds _ c) by done.
  eexists. split_and!; [done..|].
  simpl. rewrite !fetched_messages_app, Hf. simpl. by rewrite !app_nil_r.
Qed.

Lemma partial_failure_isolation_witness :
  let w := world_with (Some 50%Z) in
  let hist :=
    {| historyId := Some (JStr "70");
       history := [ {| messagesAdded := [inbox_message "m1"; inbox_message "m2"] |} ] |} in
  (visits_each_once example_runtime
   ∧ datastore_client example_config = true
   ∧ entity w = Some 50%Z ∧ 50%Z ≠ 0%Z
   ∧ py_int example_runtime (JNum 60) = Ok 60%Z ∧ (50 < 60)%Z
   ∧ history_list partly_failing_service 50 = Ok hist ∧ history hist ≠ []
   ∧ py_int example_runtime (default (JNum 50) (historyId hist)) = Ok 70%Z
   ∧ messages_get partly_failing_service "m2" = Raise HttpError)
  ∧ ∃ w', process_new_mail example_config example_runtime partly_failing_service
            (JNum 60) w = (Ok tt, w')
          ∧ entity w' = Some 70%Z
          ∧ bucket w'
            = apply_uploads
                (set_order example_runtime (collect_message_ids (history hist))
                   ≫= message_uploads example_config example_runtime
                        partly_failing_service)
                (bucket w)
          ∧ fetched_messages (calls w')
            = fetched_messages (calls w)
              ++ set_order example_runtime (collect_message_ids (history hist)).
Proof.
  split; [split_and!; [by intros s|reflexivity|reflexivity|lia|reflexivity|lia
                      |reflexivity|done|reflexivity|reflexivity]|].
  apply (partial_failure_isolation example_config example_runtime
           partly_failing_service (JNum 60) 50 60 _ 70 (world_with (Some 50%Z)));
    [by intros s|reflexivity|reflexivity|lia|reflexivity|lia|reflexivity|done
    |reflexivity|].
  intros m e _. simpl. destruct (String.eqb m "m1"); [done|]. by intros [= <-].
Defined.


(** The same run, computed: "m1" is uploaded although "m2"
    failed, and the cursor moves to 70. *)
Example partial_failure_run :
  let out := process_new_mail example_config example_runtime
               partly_failing_service (JNum 60) (world_with (Some 50%Z)) in
  out.1 = Ok tt
  ∧ entity out.2 = Some 70%Z
  ∧ map_to_list (bucket out.2)
    = [("m1/0_report.pdf",
        {| blob_data := [x41]; blob_content_type := "application/pdf" |})]
  ∧ filter (λ c, is_provider_call c = true) (calls out.2)
    ≡ₚ [HistoryList 50; MessagesGet "m1"; AttachmentsGet "m1" "att-1";
        BlobUpload "m1/0_report.pdf"; MessagesGet "m2"].
Proof.
  vm_compute. split_and!; try reflexivity.
Qed.

(** ** The push endpoint *)

Section Endpoint.

Variable cfg : config.
Variable rt : runtime.
Hypothesis datastore_ready : datastore_client cfg = true.
Hypothesis storage_ready : storage_client cfg = true.

Lemma push_without_envelope envelope service w :
  truthy envelope = false →
  process_pubsub_push cfg rt envelope service w = (Ok 400%Z, w).
Proof.
  intros He. unfold process_pubsub_push.
  by rewrite datastore_ready, storage_ready, He.
Qed.

Lemma push_without_message items service w :
  items ≠ [] →
  truthy (default JNull (dict_lookup "message" items)) = false →
  process_pubsub_push cfg rt (JObj items) service w = (Ok 400%Z, w).
Proof.
  intros Hne Hm. unfold process_pubsub_push.
  rewrite datastore_ready, storage_ready.
  replace (truthy (JObj items)) with true by (by destruct items).
  unfold py_get, mbind, M_bind, lift. cbn [negb orb].
  by rewrite Hm.
Qed.

(** Once the envelope and the message are dicts, the answer is decided by
    the [try] block. *)
Lemma push_with_message items fields service w :
  dict_lookup "message" items = Some (JObj fields) →
  fields ≠ [] →
  process_pubsub_push cfg rt (JObj items) service w
  = match dict_lookup "data" fields with
    | None => (Ok 400%Z, w)
    | Some data_b64 =>
        match decode_notification rt data_b64 with
        | Raise e => (Ok (if is_JSONDecodeError e then 400 else 500)%Z, w)
        | Ok (JObj items) =>
            let email_address := default JNull (dict_lookup "emailAddress" items) in
            let history_id := default JNull (dict_lookup "historyId" items) in
            if differs_from_target cfg email_address then (Ok 204%Z, w)
            else
              match service with
              | None => (Ok 500%Z, w)
              | Some service =>
                  match process_new_mail cfg rt service history_id w with
                  | (Ok _, w') => (Ok 204%Z, w')
                  | (Raise e, w') =>
                      (Ok (if is_JSONDecodeError e then 400 else 500)%Z, w')
                  end
              end
        | Ok _ => (Ok 500%Z, w)
        end
    end.
Proof.
  intros Hmsg Hne.
  assert (truthy (JObj fields) = true) as Htr by (by destruct fields).
  assert (truthy (JObj items) = true) as Hti by (by destruct items).
  unfold process_pubsub_push.
  rewrite datastore_ready, storage_ready, Hti.
  assert (py_get (JObj items) "message" = Ok (JObj fields)) as ->
    by (unfold py_get; by rewrite Hmsg).
  unfold py_in, py_item, py_get, mbind, M_bind, mret, M_ret, lift, try_except.
  cbn [negb orb]. rewrite Htr. cbn [negb].
  destruct (dict_lookup "data" fields) as [d|] eqn:Hd; [|done].
  change (bool_decide (is_Some (Some d))) with true.
  change (default JNull (Some d)) with d. cbn [is_Exception].
  destruct (decode_notification rt d) as [j|e];
    [|by destruct (is_JSONDecodeError e)].
  destruct j as [| | | | |fs]; try done.
  destruct (differs_from_target cfg _); [done|].
  destruct service as [service|]; [|done].
  destruct (process_new_mail cfg rt service _ w) as [[[]|e] w']; [done|].
  by destruct (is_JSONDecodeError e).
Qed.

(** The four malformed shapes that are answered with 400. *)
Corollary push_without_data items fields service w :
  dict_lookup "message" items = Some (JObj fields) → fields ≠ [] →
  dict_lookup "data" fields = None →
  process_pubsub_push cfg rt (JObj items) service w = (Ok 400%Z, w).
Proof. intros Hm Hne Hd. by rewrite (push_with_message items fields), Hd. Qed.

Corollary push_data_not_json items fields d service w :
  dict_lookup "message" items = Some (JObj fields) → fields ≠ [] →
  dict_lookup "data" fields = Some d →
  decode_notification rt d = Raise JSONDecodeError →
  process_pubsub_push cfg rt (JObj items) service w = (Ok 400%Z, w).
Proof.
  intros Hm Hne Hd He. by rewrite (push_with_message items fields), Hd, He.
Qed.

(** Data that cannot be decoded for another reason (not a string, bad
    base64, bad UTF-8) and data that decodes to something else than a dict
    fall into the general handler. *)
Corollary push_data_undecodable items fields d e service w :
  dict_lookup "message" items = Some (JObj fields) → fields ≠ [] →
  dict_lookup "data" fields = Some d →
  decode_notification rt d = Raise e → e ≠ JSONDecodeError →
  process_pubsub_push cfg rt (JObj items) service w = (Ok 500%Z, w).
Proof.
  intros Hm Hne Hd He Hj. rewrite (push_with_message items fields), Hd, He by done.
  unfold is_JSONDecodeError. by rewrite bool_decide_eq_false_2.
Qed.

Corollary push_data_not_object items fields d j service w :
  dict_lookup "message" items = Some (JObj fields) → fields ≠ [] →
  dict_lookup "data" fields = Some d →
  decode_notification rt d = Ok j → (∀ kv, j ≠ JObj kv) →
  process_pubsub_push cfg rt (JObj items) service w = (Ok 500%Z, w).
Proof.
  intros Hm Hne Hd Hj Hobj. rewrite (push_with_message items fields), Hd, Hj by done.
  destruct j; try done. by destruct (Hobj items0).
Qed.

(** A notification for another address is acknowledged without a pass; a
    dict without ['emailAddress'] is one of them when a target is set. *)
Corollary push_foreign_address items fields d kv service w :
  dict_lookup "message" items = Some (JObj fields) → fields ≠ [] →
  dict_lookup "data" fields = Some d →
  decode_notification rt d = Ok (JObj kv) →
  differs_from_target cfg (default JNull (dict_lookup "emailAddress" kv)) = true →
  process_pubsub_push cfg rt (JObj items) service w = (Ok 204%Z, w).
Proof.
  intros Hm Hne Hd Hj Hdiff.
  rewrite (push_with_message items fields), Hd, Hj by done.
  cbv zeta. by rewrite Hdiff.
Qed.

End Endpoint.

(** C5 fails on the code.  The body
    [{"message": {"data": "WzFd", "messageId": "1"}}] carries the base64
    text of the JSON document [[1]], which is not a dict: the lookup of
    ['emailAddress'] raises [AttributeError], the general handler catches
    it, and the answer is 500, with nothing stored. *)
Theorem malformed_payload_answers_500 :
  process_pubsub_push example_config example_runtime
    (JObj [("message", JObj [("data", JStr "WzFd"); ("messageId", JStr "1")])])
    (Some failing_service) (world_with (Some 50%Z))
  = (Ok 500%Z, world_with (Some 50%Z)).
Proof. by vm_compute. Qed.

(** More malformed bodies: data that is not a string is answered with 500
    whatever the library does, a dict without the two fields is acknowledged
    with 204 as a notification for another address, and a body that is not a
    dict makes [envelope.get] raise outside the [try] block. *)
Example non_string_data_answers_500 rt service w :
  process_pubsub_push example_config rt
    (JObj [("message", JObj [("data", JNum 5)])]) service w
  = (Ok 500%Z, w).
Proof.
  by apply (push_data_undecodable example_config rt eq_refl eq_refl _
              [("data", JNum 5)] (JNum 5) TypeError).
Qed.

Example empty_notification_answers_204 :
  process_pubsub_push example_config example_runtime
    (JObj [("message", JObj [("data", JStr "e30=")])])
    (Some failing_service) (world_with (Some 50%Z))
  = (Ok 204%Z, world_with (Some 50%Z)).
Proof. by vm_compute. Qed.

Example list_body_answers_500 rt service w :
  process_pubsub_push example_config rt (JArr [JNum 1]) service w
  = (Raise AttributeError, w)
  ∧ http_status (process_pubsub_push example_config rt (JArr [JNum 1]) service w).1
    = 500%Z.
Proof. done. Qed.

(** ** Monotonicity of the stored cursor *)

Section Monotone.

Variable cfg : config.
Variable rt : runtime.

Lemma cursor_le_refl a : cursor_le a a.
Proof. destruct a; simpl; [lia|done]. Qed.

Lemma cursor_le_trans a b c : cursor_le a b → cursor_le b c → cursor_le a c.
Proof. destruct a, b, c; simpl; try done; lia. Qed.

(** The top of [process_new_mail], branch by branch. *)
Lemma process_new_mail_unfold service hid w :
  datastore_client cfg = true →
  process_new_mail cfg rt service hid w
  = match entity w with
    | None | Some 0%Z => save_last_history_id cfg rt hid w
    | Some s =>
        match py_int rt hid with
        | Raise e => (Raise e, w)
        | Ok n =>
            if (n <=? s)%Z then (Ok tt, w)
            else
              match history_list service s with
              | Ok hist =>
                  process_history cfg rt service s hist (add_call (HistoryList s) w)
              | Raise e => (Raise e, add_call (HistoryList s) w)
              end
        end
    end.
Proof.
  intros Hds. unfold process_new_mail, get_last_history_id.
  rewrite Hds. simpl.
  rewrite (bind_ok _ _ w (entity w) w) by done.
  destruct (entity w) as [[|p|p]|]; try done; run_monad;
    destruct (py_int rt hid) as [n|e]; try done;
    destruct (n <=? _)%Z; try done;
    destruct (history_list service _) as [hist|e]; try done;
    by destruct (is_HttpError e).
Qed.

(** After the history request the cursor stays or moves to the reported
    value. *)
Lemma process_history_cursor service s hist w :
  keeps_up rt service →
  history_list service s = Ok hist →
  entity w = Some s →
  cursor_le (Some s) (entity (process_history cfg rt service s hist w).2).
Proof.
  intros Hup Hhist Hw.
  destruct (decide (history hist = [])) as [Hnil|Hne].
  - unfold process_history. rewrite Hnil. run_monad.
    destruct (py_int rt _) as [c|e] eqn:Hc; simpl; [|by rewrite Hw; simpl; lia].
    destruct (s <? c)%Z eqn:Hlt; [|by simpl; rewrite Hw; simpl; lia].
    destruct (save_last_history_id_spec cfg rt (default (JNum s) (historyId hist)) w)
      as (r & w' & -> & _ & _ & [->|(n & Hn & _ & Hen)]); simpl.
    + rewrite Hw. simpl. lia.
    + rewrite Hen. simpl. rewrite Hc in Hn. injection Hn as <-.
      apply Z.ltb_lt in Hlt. lia.
  - rewrite process_history_changes by done.
    destruct (process_messages_spec cfg rt service
                (set_order rt (collect_message_ids (history hist))) w)
      as (seen & cs & r & Hrun & _).
    destruct r as [[]|e].
    + rewrite (bind_ok _ _ _ _ _ Hrun).
      match goal with |- context [save_last_history_id cfg rt ?h ?w1] =>
        destruct (save_last_history_id_spec cfg rt h w1)
          as (r' & w' & -> & _ & _ & [->|(n & Hn & _ & Hen)]) end; simpl.
      * rewrite Hw. simpl. lia.
      * rewrite Hen. simpl. by apply (Hup s hist n).
    + rewrite (bind_raise _ _ _ _ _ Hrun). simpl. rewrite Hw. simpl. lia.
Qed.

(** One pass does not lower the stored cursor. *)
Lemma process_new_mail_monotone service hid w :
  keeps_up rt service → nonnegative_cursor rt hid →
  cursor_le (entity w) (entity (process_new_mail cfg rt service hid w).2).
Proof.
  intros Hup Hnn.
  destruct (datastore_client cfg) eqn:Hds.
  2:{ unfold process_new_mail. rewrite Hds. apply cursor_le_refl. }
  rewrite process_new_mail_unfold by done.
  destruct (entity w) as [s|] eqn:Hw; [|done].
  destruct (decide (s = 0%Z)) as [->|Hs].
  - destruct (save_last_history_id_spec cfg rt hid w)
      as (r & w' & -> & _ & _ & [->|(n & Hn & _ & Hen)]); simpl.
    + rewrite Hw. simpl. lia.
    + rewrite Hen. simpl. by apply Hnn.
  - assert (match s with 0%Z => save_last_history_id cfg rt hid w | _ =>
              match py_int rt hid with
              | Raise e => (Raise e, w)
              | Ok n =>
                  if (n <=? s)%Z then (Ok tt, w)
                  else
                    match history_list service s with
                    | Ok hist =>
                        process_history cfg rt service s hist (add_call (HistoryList s) w)
                    | Raise e => (Raise e, add_call (HistoryList s) w)
                    end
              end end
            = match py_int rt hid with
              | Raise e => (Raise e, w)
              | Ok n =>
                  if (n <=? s)%Z then (Ok tt, w)
                  else
                    match history_list service s with
                    | Ok hist =>
                        process_history cfg rt service s hist (add_call (HistoryList s) w)
                    | Raise e => (Raise e, add_call (HistoryList s) w)
                    end
              end) as -> by (by destruct s).
    destruct (py_int rt hid) as [n|e]; [|by simpl; rewrite Hw; simpl; lia].
    destruct (n <=? s)%Z; [by simpl; rewrite Hw; simpl; lia|].
    destruct (history_list service s) as [hist|e] eqn:Hh;
      [|by simpl; rewrite Hw; simpl; lia].
    by apply process_history_cursor.
Qed.

End Monotone.

(** X1.  With a provider that keeps up and non-negative notification
    cursors, no sequence of passes lowers the stored cursor. *)
Theorem stored_cursor_never_decreases cfg rt notifications w :
  Forall (λ n, keeps_up rt n.1 ∧ nonnegative_cursor rt n.2) notifications →
  cursor_le (entity w) (entity (run_passes cfg rt notifications w)).
Proof.
  intros Hall. revert w. induction Hall as [|[service hid] l [Hup Hnn] _ IH]; intros w.
  - apply cursor_le_refl.
  - simpl. eapply cursor_le_trans; [|apply IH].
    by apply process_new_mail_monotone.
Qed.

(** * Further properties *)

(** ** More on names *)

Module Names.

Lemma replace_unsafe_fixed s : string_all safe_char s = true → replace_unsafe s = s.
Proof.
  induction s as [|c s IH]; [done|]. simpl.
  intros [Hc Hs]%andb_prop. by rewrite Hc, IH.
Qed.

Lemma has_double_underscore_true s :
  has_double_underscore s = true → ∃ x y, s = x +:+ "__" +:+ y.
Proof.
  induction s as [|c s IH]; [done|].
  destruct s as [|c' s']; [done|].
  simpl. intros [Hs|Hs]%orb_prop.
  - apply andb_prop in Hs as [->%Ascii.eqb_eq ->%Ascii.eqb_eq].
    by exists "", s'.
  - destruct (IH Hs) as (x & y & Hxy).
    exists (String c x), y. by rewrite Str.app_cons, <-Hxy.
Qed.

Lemma collapse_underscores_fixed s :
  has_double_underscore s = false → collapse_underscores s = s.
Proof.
  induction s as [|c s IH]; [done|].
  destruct s as [|c' s']; [done|].
  change (has_double_underscore (String c (String c' s')))
    with ((Ascii.eqb c "_" && Ascii.eqb c' "_")
          || has_double_underscore (String c' s')).
  intros [Hcc Hs]%orb_false_elim.
  change (collapse_underscores (String c (String c' s')))
    with (if Ascii.eqb c "_" && Ascii.eqb c' "_"
          then collapse_underscores (String c' s')
          else String c (collapse_underscores (String c' s'))).
  by rewrite Hcc, IH.
Qed.

Lemma lstrip_fixed p s :
  (∀ c s', s = String c s' → p c = false) → lstrip p s = s.
Proof. destruct s as [|c s]; [done|]. intros H. simpl. by rewrite (H c s). Qed.

Lemma rstrip_fixed p s :
  (∀ s' c, s = s' +:+ String c "" → p c = false) → rstrip p s = s.
Proof.
  induction s as [|x s IH]; [done|]. intros H. simpl.
  destruct s as [|y s'].
  - simpl. by rewrite (H "" x).
  - rewrite IH; [done|]. intros s0 c Hs0. apply (H (String x s0) c).
    by rewrite Str.app_cons, <-Hs0.
Qed.

(** A name that is already well formed is what the three steps return. *)
Lemma sanitized_form_fixed r : well_formed_name r → sanitized_form r = r.
Proof.
  intros (_ & Hsafe & Hdouble & Hhead & Hlast).
  unfold sanitized_form, strip.
  rewrite replace_unsafe_fixed by done.
  rewrite collapse_underscores_fixed.
  - rewrite lstrip_fixed by done. by apply rstrip_fixed.
  - destruct (has_double_underscore r) eqn:Hd; [|done].
    apply has_double_underscore_true in Hd as (x & y & Hxy).
    by destruct (Hdouble x y).
Qed.

Lemma sanitize_filename_well_formed filename :
  well_formed_name (sanitize_filename filename).
Proof.
  destruct filename as [[|c f]|];
    [by apply Sanitize.well_formed_by_computation..| |
     by apply Sanitize.well_formed_by_computation].
  unfold sanitize_filename.
  destruct (sanitized_form (String c f)) as [|c' r] eqn:Hs.
  - by apply Sanitize.well_formed_by_computation.
  - rewrite <-Hs. apply Sanitize.well_formed_sanitized_form. by rewrite Hs.
Qed.

Lemma sanitize_filename_of_well_formed r :
  well_formed_name r → sanitize_filename (Some r) = r.
Proof.
  intros Hwf. pose proof (sanitized_form_fixed r Hwf) as Hfix.
  destruct Hwf as (Hne & _). destruct r as [|c r]; [done|].
  unfold sanitize_filename. by rewrite Hfix.
Qed.

(** The decimal digits written by [pretty] hold no slash. *)
Lemma pretty_N_char_not_slash x : not_slash (pretty_N_char x) = true.
Proof. unfold pretty_N_char. by repeat case_match. Qed.

Lemma pretty_N_go_not_slash x s :
  string_all not_slash s = true →
  string_all not_slash (pretty_N_go x s) = true.
Proof.
  revert s. induction (N.lt_wf_0 x) as [x _ IH]; intros s Hs.
  assert (x = 0 ∨ 0 < x)%N as [->|Hx] by lia.
  - by rewrite pretty_N_go_0.
  - rewrite pretty_N_go_step by done. apply IH.
    + by apply N.div_lt.
    + simpl. by rewrite pretty_N_char_not_slash, Hs.
Qed.

Lemma pretty_nat_not_slash (i : nat) : string_all not_slash (pretty i) = true.
Proof.
  unfold pretty, pretty_nat, pretty, pretty_N.
  case_decide; [done|]. by apply pretty_N_go_not_slash.
Qed.

Lemma safe_char_not_slash c : safe_char c = true → not_slash c = true.
Proof.
  unfold not_slash. destruct (Ascii.eqb c "/") eqn:Hc; [|done].
  apply Ascii.eqb_eq in Hc as ->. done.
Qed.

Lemma string_all_impl (p q : ascii → bool) s :
  (∀ c, p c = true → q c = true) → string_all p s = true → string_all q s = true.
Proof.
  intros Hpq. induction s as [|c s IH]; [done|]. simpl.
  intros [Hc Hs]%andb_prop. by rewrite (Hpq c Hc), IH.
Qed.

(** Two strings that agree from a separator [d] on, with nothing but
    characters other than [d] after it, agree before it as well. *)
Lemma split_at_last (d : ascii) (a b t u : string) :
  string_all (λ c, negb (Ascii.eqb c d)) t = true →
  string_all (λ c, negb (Ascii.eqb c d)) u = true →
  a +:+ String d t = b +:+ String d u →
  a = b ∧ t = u.
Proof.
  intros Ht Hu. revert b. induction a as [|x a IH]; intros [|y b];
    rewrite ?Str.app_cons, ?Str.app_nil_l; intros Heq.
  - by inversion Heq.
  - inversion Heq as [[Hy Htu]]. rewrite Htu, Str.all_app in Ht.
    cbn [string_all] in Ht. rewrite <-Hy, Ascii.eqb_refl in Ht.
    by rewrite andb_false_r in Ht.
  - inversion Heq as [[Hx Htu]]. rewrite <-Htu, Str.all_app in Hu.
    cbn [string_all] in Hu. rewrite ?Hx, Ascii.eqb_refl in Hu.
    by rewrite andb_false_r in Hu.
  - inversion Heq; subst. destruct (IH b) as [-> ->]; done.
Qed.

Lemma blob_suffix_not_slash (i : nat) (r : string) :
  well_formed_name r → string_all not_slash (pretty i +:+ "_" +:+ r) = true.
Proof.
  intros (_ & Hsafe & _). rewrite !Str.all_app, pretty_nat_not_slash. simpl.
  by rewrite (string_all_impl safe_char not_slash r safe_char_not_slash Hsafe).
Qed.

End Names.

(** X11.  A well-formed name is left as it is. *)
Theorem sanitize_filename_keeps_clean_names (r : string) :
  well_formed_name r → sanitize_filename (Some r) = r.
Proof. apply Names.sanitize_filename_of_well_formed. Qed.

Lemma sanitize_filename_keeps_clean_names_witness :
  well_formed_name "Q3_report-v2.pdf"
  ∧ sanitize_filename (Some "Q3_report-v2.pdf") = "Q3_report-v2.pdf".
Proof.
  assert (well_formed_name "Q3_report-v2.pdf") as Hwf
    by (by apply Sanitize.well_formed_by_computation).
  split; [exact Hwf|].
  apply (sanitize_filename_keeps_clean_names "Q3_report-v2.pdf" Hwf).
Defined.

(** X12.  Sanitizing twice is sanitizing once. *)
Theorem sanitize_filename_idempotent (filename : option string) :
  sanitize_filename (Some (sanitize_filename filename)) = sanitize_filename filename.
Proof.
  apply Names.sanitize_filename_of_well_formed, Names.sanitize_filename_well_formed.
Qed.

(** X13.  The blob name determines the message, the part and the sanitized
    file name: names built for different messages never collide either. *)
Theorem destination_blob_name_inj (m1 m2 : string) (i j : nat) (f1 f2 : option string) :
  destination_blob_name m1 i (sanitize_filename f1)
  = destination_blob_name m2 j (sanitize_filename f2) →
  m1 = m2 ∧ i = j ∧ sanitize_filename f1 = sanitize_filename f2.
Proof.
  unfold destination_blob_name. intros Heq.
  apply (Names.split_at_last "/") in Heq as [-> Heq];
    [|apply Names.blob_suffix_not_slash, Names.sanitize_filename_well_formed..].
  by apply BlobName.index_name_inj in Heq as [-> ->].
Qed.

Lemma destination_blob_name_inj_witness :
  destination_blob_name "m1" 3 (sanitize_filename (Some "a b.txt"))
  = destination_blob_name "m1" 3 (sanitize_filename (Some "a?b.txt"))
  ∧ ("m1" = "m1" ∧ 3 = 3
     ∧ sanitize_filename (Some "a b.txt") = sanitize_filename (Some "a?b.txt")).
Proof.
  split; [reflexivity|].
  apply (destination_blob_name_inj "m1" "m1" 3 3 (Some "a b.txt") (Some "a?b.txt")).
  reflexivity.
Defined.

(** ** More on a pass *)

Section PassFacts.

Variable cfg : config.
Variable rt : runtime.
Variable service : gmail_service.

Lemma process_messages_outcome (l : list string) w :
  entity (for_each l (process_message cfg rt service) w).2 = entity w
  ∧ ((for_each l (process_message cfg rt service) w).1 = Ok tt
     ↔ ∀ m, m ∈ l → detail_outcome service m = Ok tt).
Proof.
  destruct (process_messages_spec cfg rt service l w)
    as (seen & cs & r & Hrun & _ & _ & _ & Hok).
  rewrite Hrun. split; [done|]. simpl. split; [|done].
  clear Hok. revert w seen cs r Hrun. induction l as [|m l IH]; intros w seen cs r Hrun Hr.
  - intros m Hm. by apply elem_of_nil in Hm.
  - subst r. simpl in Hrun.
    destruct (process_message_spec cfg rt service m w) as (cs1 & H1 & _).
    destruct (detail_outcome service m) as [[]|e] eqn:Hd.
    + rewrite (bind_ok _ _ _ _ _ H1) in Hrun.
      match type of Hrun with for_each l _ ?w1 = _ =>
        destruct (process_messages_spec cfg rt service l w1)
          as (seen' & cs' & r' & Hrun' & _) end.
      assert (r' = Ok tt) as -> by congruence.
      intros m' [->|Hm']%elem_of_cons; [done|].
      by eapply IH.
    + rewrite (bind_raise _ _ _ _ _ H1) in Hrun. congruence.
Qed.

(** A pass that reaches the message loop: what it returns. *)
Lemma process_new_mail_with_changes hid s n hist w :
  datastore_client cfg = true →
  entity w = Some s → s ≠ 0%Z → py_int rt hid = Ok n → (s < n)%Z →
  history_list service s = Ok hist → history hist ≠ [] →
  process_new_mail cfg rt service hid w
  = (for_each (set_order rt (collect_message_ids (history hist)))
       (process_message cfg rt service);;
     save_last_history_id cfg rt (default (JNum s) (historyId hist)))
      (add_call (HistoryList s) w).
Proof.
  intros Hds Hw Hs Hn Hlt Hhist Hne.
  rewrite (process_new_mail_fresh cfg rt Hds service hid s n w) by done.
  by rewrite Hhist, process_history_changes.
Qed.

Lemma dom_apply_uploads ups (b : gmap string blob) :
  dom b ⊆ dom (apply_uploads ups b).
Proof.
  revert b. induction ups as [|up ups IH]; intros b; [done|].
  simpl. etrans; [|apply IH]. rewrite dom_insert. set_solver.
Qed.

Lemma process_messages_bucket (l : list string) w :
  ∃ ups, bucket (for_each l (process_message cfg rt service) w).2
         = apply_uploads ups (bucket w).
Proof.
  destruct (process_messages_spec cfg rt service l w)
    as (seen & cs & r & Hrun & _).
  rewrite Hrun. by eexists.
Qed.

(** Whatever the outcome of the part of the pass that follows the history
    request, it only adds objects to the bucket and keeps a stored cursor
    stored. *)
Lemma process_history_keeps s hist w :
  dom (bucket w) ⊆ dom (bucket (process_history cfg rt service s hist w).2)
  ∧ (is_Some (entity w) →
     is_Some (entity (process_history cfg rt service s hist w).2)).
Proof.
  destruct (decide (history hist = [])) as [Hnil|Hne].
  - unfold process_history. rewrite Hnil. run_monad.
    destruct (py_int rt _) as [c|e]; simpl; [|done].
    destruct (s <? c)%Z; [|done].
    destruct (save_last_history_id_spec cfg rt (default (JNum s) (historyId hist)) w)
      as (r & w' & -> & Hb & _ & [->|(n & _ & _ & Hen)]); simpl; [done|].
    rewrite Hb, Hen. split; [done|]. by eexists.
  - rewrite process_history_changes by done.
    pose proof (process_messages_outcome
                  (set_order rt (collect_message_ids (history hist))) w) as [Hen _].
    destruct (process_messages_bucket
                (set_order rt (collect_message_ids (history hist))) w) as [ups Hups].
    destruct (for_each _ _ w) as [[[]|e] w1] eqn:Hrun; simpl in *.
    + rewrite (bind_ok _ _ _ _ _ Hrun).
      destruct (save_last_history_id_spec cfg rt (default (JNum s) (historyId hist)) w1)
        as (r & w' & -> & Hb & _ & [->|(n & _ & _ & Hen')]); simpl.
      * rewrite Hups, Hen. split; [apply dom_apply_uploads|done].
      * rewrite Hb, Hups, Hen'. split; [apply dom_apply_uploads|]. by eexists.
    + rewrite (bind_raise _ _ _ _ _ Hrun). simpl.
      rewrite Hups, Hen. split; [apply dom_apply_uploads|done].
Qed.

End PassFacts.

(** X4.  A pass never deletes: every object of the bucket is still there
    afterwards, and a stored cursor is still stored, on every path and
    whatever fails. *)
Theorem process_new_mail_never_deletes cfg rt service hid w :
  dom (bucket w) ⊆ dom (bucket (process_new_mail cfg rt service hid w).2)
  ∧ (entity (process_new_mail cfg rt service hid w).2 = None → entity w = None).
Proof.
  destruct (datastore_client cfg) eqn:Hds.
  2:{ unfold process_new_mail. rewrite Hds. done. }
  rewrite process_new_mail_unfold by done.
  assert (∀ w0 : world,
            dom (bucket w) ⊆ dom (bucket w0) →
            (is_Some (entity w) → is_Some (entity w0)) →
            dom (bucket w) ⊆ dom (bucket w0) ∧ (entity w0 = None → entity w = None))
    as Hgoal.
  { intros w0 Hd He. split; [done|]. intros Hn.
    destruct (entity w) as [s|]; [|done].
    destruct He as [s' Hs']; [by eexists|]. congruence. }
  assert (dom (bucket w) ⊆ dom (bucket (save_last_history_id cfg rt hid w).2)
          ∧ (is_Some (entity w) →
             is_Some (entity (save_last_history_id cfg rt hid w).2))) as [Hsb Hse].
  { destruct (save_last_history_id_spec cfg rt hid w)
      as (r & w' & -> & Hb & _ & [->|(n & _ & _ & Hen)]); simpl; [done|].
    rewrite Hb, Hen. split; [done|]. by eexists. }
  destruct (entity w) as [s|] eqn:Hw; [|by apply Hgoal].
  destruct (decide (s = 0%Z)) as [->|Hs]; [by apply Hgoal|].
  assert (∀ X Y : res unit * world, match s with 0%Z => X | _ => Y end = Y) as ->
    by (intros; by destruct s).
  destruct (py_int rt hid) as [n|e]; [|apply Hgoal; simpl; [done|by rewrite Hw]].
  destruct (n <=? s)%Z; [apply Hgoal; simpl; [done|by rewrite Hw]|].
  destruct (history_list service s) as [hist|e];
    [|apply Hgoal; simpl; [done|by rewrite Hw]].
  destruct (process_history_keeps cfg rt service s hist (add_call (HistoryList s) w))
    as [Hd He].
  apply Hgoal; [done|]. intros _. apply He. simpl. by rewrite Hw.
Qed.

(** X2.  With no change record in the answer, the cursor moves to the
    reported [historyId] when that is larger and stays otherwise; no message
    is fetched and nothing is uploaded. *)
Theorem empty_delta_moves_cursor_forward_only cfg rt service hid s n hist c w :
  datastore_client cfg = true →
  entity w = Some s → s ≠ 0%Z →
  py_int rt hid = Ok n → (s < n)%Z →
  history_list service s = Ok hist → history hist = [] →
  py_int rt (default (JNum s) (historyId hist)) = Ok c →
  process_new_mail cfg rt service hid w
  = (Ok tt, {| entity := Some (Z.max s c); bucket := bucket w;
               calls := calls w ++ HistoryList s
                          :: (if (s <? c)%Z then [DatastorePut c] else []) |}).
Proof.
  intros Hds Hw Hs Hn Hlt Hhist Hnil Hc.
  rewrite (process_new_mail_fresh cfg rt Hds service hid s n w) by done.
  rewrite Hhist. unfold process_history. rewrite Hnil. run_monad. rewrite Hc.
  destruct (s <? c)%Z eqn:Hsc.
  - rewrite (save_last_history_id_ok cfg rt Hds _ c) by done.
    apply Z.ltb_lt in Hsc. unfold add_call, set_entity. simpl.
    rewrite <-app_assoc. simpl. do 3 f_equal. lia.
  - apply Z.ltb_ge in Hsc. unfold add_call. simpl. rewrite Hw.
    do 3 f_equal. lia.
Qed.

Lemma empty_delta_moves_cursor_forward_only_witness :
  let hist := {| historyId := Some (JStr "55"); history := [] |} in
  (datastore_client example_config = true
   ∧ entity (world_with (Some 50%Z)) = Some 50%Z ∧ 50%Z ≠ 0%Z
   ∧ py_int example_runtime (JNum 60) = Ok 60%Z ∧ (50 < 60)%Z
   ∧ history_list quiet_service 50 = Ok hist ∧ history hist = []
   ∧ py_int example_runtime (default (JNum 50) (historyId hist)) = Ok 55%Z)
  ∧ process_new_mail example_config example_runtime quiet_service (JNum 60)
      (world_with (Some 50%Z))
    = (Ok tt, {| entity := Some (Z.max 50 55); bucket := ∅;
                 calls := [] ++ HistoryList 50
                            :: (if (50 <? 55)%Z then [DatastorePut 55] else []) |}).
Proof.
  split; [split_and!; [reflexivity|reflexivity|lia|reflexivity|lia|reflexivity
                      |reflexivity|reflexivity]|].
  apply (empty_delta_moves_cursor_forward_only example_config example_runtime
           quiet_service (JNum 60) 50 60
           {| historyId := Some (JStr "55"); history := [] |} 55
           (world_with (Some 50%Z)));
    [reflexivity|reflexivity|lia|reflexivity|lia|reflexivity|reflexivity|reflexivity].
Defined.

(** X5.  A detail request that raises anything else than [HttpError] ends
    the pass with an exception and the stored cursor keeps its value. *)
Theorem detail_exception_aborts_pass cfg rt service hid s n hist m e w :
  visits_each_once rt →
  datastore_client cfg = true →
  entity w = Some s → s ≠ 0%Z →
  py_int rt hid = Ok n → (s < n)%Z →
  history_list service s = Ok hist →
  m ∈ collect_message_ids (history hist) →
  messages_get service m = Raise e → e ≠ HttpError →
  ∃ e' w', process_new_mail cfg rt service hid w = (Raise e', w')
           ∧ entity w' = Some s.
Proof.
  intros Hord Hds Hw Hs Hn Hlt Hhist Hm Hget He.
  assert (history hist ≠ []) as Hne.
  { intros Hnil. rewrite Hnil in Hm. by apply elem_of_empty in Hm. }
  rewrite (process_new_mail_with_changes cfg rt service hid s n hist w) by done.
  set (l := set_order rt (collect_message_ids (history hist))).
  pose proof (process_messages_outcome cfg rt service l (add_call (HistoryList s) w))
    as [Hen Hiff].
  destruct (for_each l _ _) as [[[]|e'] w1] eqn:Hrun; simpl in *.
  - exfalso. assert (detail_outcome service m = Ok tt) as Hd.
    { apply Hiff; [done|]. subst l. rewrite (Hord _). by apply elem_of_elements. }
    unfold detail_outcome in Hd. rewrite Hget in Hd.
    unfold is_HttpError in Hd. by rewrite bool_decide_eq_false_2 in Hd.
  - rewrite (bind_raise _ _ _ _ _ Hrun). exists e', w1. by rewrite Hen.
Qed.

Lemma detail_exception_aborts_pass_witness :
  let hist :=
    {| historyId := Some (JStr "70");
       history := [ {| messagesAdded := [inbox_message "m1"; inbox_message "m2"] |} ] |} in
  (visits_each_once example_runtime
   ∧ datastore_client example_config = true
   ∧ entity (world_with (Some 50%Z)) = Some 50%Z ∧ 50%Z ≠ 0%Z
   ∧ py_int example_runtime (JNum 60) = Ok 60%Z ∧ (50 < 60)%Z
   ∧ history_list broken_service 50 = Ok hist
   ∧ "m2" ∈ collect_message_ids (history hist)
   ∧ messages_get broken_service "m2" = Raise (OtherError "TimeoutError")
   ∧ OtherError "TimeoutError" ≠ HttpError)
  ∧ ∃ e' w', process_new_mail example_config example_runtime broken_service
               (JNum 60) (world_with (Some 50%Z)) = (Raise e', w')
             ∧ entity w' = Some 50%Z.
Proof.
  assert ("m2" ∈ collect_message_ids
            [ {| messagesAdded := [inbox_message "m1"; inbox_message "m2"] |} ]) as Hin.
  { apply elem_of_collect_message_ids.
    eexists _, (inbox_message "m2"), _.
    split_and!; [|..|reflexivity|reflexivity|]; repeat constructor. }
  split; [split_and!; [by intros s|reflexivity|reflexivity|lia|reflexivity|lia
                      |reflexivity|exact Hin|reflexivity|done]|].
  apply (detail_exception_aborts_pass example_config example_runtime broken_service
           (JNum 60) 50 60
           {| historyId := Some (JStr "70");
              history := [ {| messagesAdded := [inbox_message "m1"; inbox_message "m2"] |} ] |}
           "m2" (OtherError "TimeoutError") (world_with (Some 50%Z)));
    [by intros s|reflexivity|reflexivity|lia|reflexivity|lia|reflexivity|exact Hin
    |reflexivity|done].
Defined.

(** X6.  When no upload can succeed (the storage client is missing or the
    bucket refuses every object), a pass that reaches the message loop and
    whose detail requests succeed or fail with [HttpError] still completes
    and commits the reported cursor, with the bucket unchanged. *)
Theorem failed_uploads_do_not_hold_cursor cfg rt service hid s n hist c w :
  visits_each_once rt →
  datastore_client cfg = true →
  entity w = Some s → s ≠ 0%Z →
  py_int rt hid = Ok n → (s < n)%Z →
  history_list service s = Ok hist → history hist ≠ [] →
  py_int rt (default (JNum s) (historyId hist)) = Ok c →
  (∀ m e, m ∈ collect_message_ids (history hist) →
          messages_get service m = Raise e → e = HttpError) →
  storage_client cfg = false ∨ (∀ name, gcs_upload_ok rt name = false) →
  ∃ w', process_new_mail cfg rt service hid w = (Ok tt, w')
        ∧ entity w' = Some c
        ∧ bucket w' = bucket w.
Proof.
  intros Hord Hds Hw Hs Hn Hlt Hhist Hne Hc Hhttp Hfail.
  rewrite (process_new_mail_with_changes cfg rt service hid s n hist w) by done.
  set (l := set_order rt (collect_message_ids (history hist))).
  destruct (process_messages_spec cfg rt service l (add_call (HistoryList s) w))
    as (seen & cs & r & Hrun & _ & _ & _ & Hok).
  assert (r = Ok tt) as ->.
  { apply Hok. intros m Hm. subst l. rewrite (Hord _) in Hm.
    apply elem_of_elements in Hm. unfold detail_outcome.
    destruct (messages_get service m) as [msg|e] eqn:Hget; [done|].
    by rewrite (Hhttp m e Hm Hget). }
  assert (∀ m ip, part_upload cfg rt service m ip = None) as Hnone.
  { intros m ip. unfold part_upload. repeat case_match; try done.
    destruct Hfail as [Hsc|Hgcs]; [by rewrite Hsc in *|].
    rewrite Hgcs, andb_false_r in *. done. }
  assert (seen ≫= message_uploads cfg rt service = []) as Hups.
  { clear Hrun. induction seen as [|m seen IH]; [done|].
    rewrite bind_cons, IH, app_nil_r. unfold message_uploads.
    destruct (messages_get service m) as [msg|]; [|done].
    induction (enumerate_from 0 (parts msg)) as [|ip ips IHp]; [done|].
    simpl. by rewrite Hnone. }
  rewrite Hups in Hrun. rewrite (bind_ok _ _ _ _ _ Hrun).
  rewrite (save_last_history_id_ok cfg rt Hds _ c) by done.
  by eexists.
Qed.

Lemma failed_uploads_do_not_hold_cursor_witness :
  let hist :=
    {| historyId := Some (JStr "70");
       history := [ {| messagesAdded := [inbox_message "m1"; inbox_message "m2"] |} ] |} in
  (visits_each_once example_runtime
   ∧ datastore_client config_without_storage = true
   ∧ entity (world_with (Some 50%Z)) = Some 50%Z ∧ 50%Z ≠ 0%Z
   ∧ py_int example_runtime (JNum 60) = Ok 60%Z ∧ (50 < 60)%Z
   ∧ history_list partly_failing_service 50 = Ok hist ∧ history hist ≠ []
   ∧ py_int example_runtime (default (JNum 50) (historyId hist)) = Ok 70%Z
   ∧ messages_get partly_failing_service "m2" = Raise HttpError
   ∧ storage_client config_without_storage = false)
  ∧ ∃ w', process_new_mail config_without_storage example_runtime
            partly_failing_service (JNum 60) (world_with (Some 50%Z)) = (Ok tt, w')
          ∧ entity w' = Some 70%Z
          ∧ bucket w' = bucket (world_with (Some 50%Z)).
Proof.
  split; [split_and!; [by intros s|reflexivity|reflexivity|lia|reflexivity|lia
                      |reflexivity|done|reflexivity|reflexivity|reflexivity]|].
  apply (failed_uploads_do_not_hold_cursor config_without_storage example_runtime
           partly_failing_service (JNum 60) 50 60
           {| historyId := Some (JStr "70");
              history := [ {| messagesAdded := [inbox_message "m1"; inbox_message "m2"] |} ] |}
           70 (world_with (Some 50%Z)));
    [by intros s|reflexivity|reflexivity|lia|reflexivity|lia|reflexivity|done
    |reflexivity| |by left].
  intros m e _. simpl. destruct (String.eqb m "m1"); [done|]. by intros [= <-].
Defined.

(** X8.  Redelivery of the very first notification changes nothing: once the
    first pass has stored a non-zero cursor, a second pass for the same
    notification is skipped, whatever the provider would answer. *)
Theorem replay_of_first_notification_is_noop cfg rt service service' hid n w :
  datastore_client cfg = true →
  entity w = None ∨ entity w = Some 0%Z →
  py_int rt hid = Ok n → n ≠ 0%Z →
  run_passes cfg rt [(service, hid); (service', hid)] w
  = run_passes cfg rt [(service, hid)] w.
Proof.
  intros Hds Hw Hn Hn0. unfold run_passes. simpl.
  rewrite (process_new_mail_first_run cfg rt Hds service hid n w) by done.
  simpl.
  by rewrite (process_new_mail_stale cfg rt Hds service' hid n n) by (done || lia).
Qed.

Lemma replay_of_first_notification_is_noop_witness :
  (datastore_client example_config = true
   ∧ (entity (world_with None) = None ∨ entity (world_with None) = Some 0%Z)
   ∧ py_int example_runtime (JNum 100) = Ok 100%Z ∧ 100%Z ≠ 0%Z)
  ∧ run_passes example_config example_runtime
      [(failing_service, JNum 100); (partly_failing_service, JNum 100)]
      (world_with None)
    = run_passes example_config example_runtime [(failing_service, JNum 100)]
        (world_with None).
Proof.
  split; [split_and!; [reflexivity|by left|reflexivity|lia]|].
  apply (replay_of_first_notification_is_noop example_config example_runtime
           failing_service partly_failing_service (JNum 100) 100 (world_with None));
    [reflexivity|by left|reflexivity|lia].
Defined.

(** X9.  What [save_last_history_id] stores is what [get_last_history_id]
    reads back: the integer value of the argument. *)
Theorem saved_cursor_is_read_back cfg rt history_id n w :
  datastore_client cfg = true →
  py_int rt history_id = Ok n →
  (save_last_history_id cfg rt history_id;; get_last_history_id cfg) w
  = (Ok (Some n), {| entity := Some n; bucket := bucket w;
                     calls := calls w ++ [DatastorePut n] |}).
Proof.
  intros Hds Hn.
  rewrite (bind_ok _ _ _ _ _ (save_last_history_id_ok cfg rt Hds history_id n w Hn)).
  unfold get_last_history_id. by rewrite Hds.
Qed.

Lemma saved_cursor_is_read_back_witness :
  (datastore_client example_config = true
   ∧ py_int example_runtime (JStr "12345") = Ok 12345%Z)
  ∧ (save_last_history_id example_config example_runtime (JStr "12345");;
     get_last_history_id example_config) (world_with (Some 7%Z))
    = (Ok (Some 12345%Z), {| entity := Some 12345%Z; bucket := ∅;
                             calls := [] ++ [DatastorePut 12345] |}).
Proof.
  split; [split; reflexivity|].
  apply (saved_cursor_is_read_back example_config example_runtime (JStr "12345")
           12345 (world_with (Some 7%Z))); reflexivity.
Defined.

(** X10.  The set of collected identifiers of a concatenation of change lists
    is the union of the sets of its parts; in particular the order of the
    change records does not matter. *)
Theorem collect_message_ids_app (changes1 changes2 : list change) :
  collect_message_ids (changes1 ++ changes2)
  = collect_message_ids changes1 ∪ collect_message_ids changes2.
Proof.
  apply set_eq. intros m.
  rewrite elem_of_union, !elem_of_collect_message_ids. split.
  - intros (c & ma & msg & Hc & Hrest).
    apply elem_of_app in Hc as [Hc|Hc]; [left|right]; by exists c, ma, msg.
  - intros [(c & ma & msg & Hc & Hrest)|(c & ma & msg & Hc & Hrest)];
      exists c, ma, msg; (split; [apply elem_of_app; by auto|done]).
Qed.

(** X7.  Handling one message raises only what its detail request raised, and
    only if that is not an [HttpError]: no failure of an attachment request,
    of the decoding or of an upload leaves [process_message].  The cursor is
    untouched and the bucket receives the uploads of the parts in order. *)
Theorem process_message_outcome cfg rt service m w :
  ∃ w', process_message cfg rt service m w = (detail_outcome service m, w')
        ∧ entity w' = entity w
        ∧ bucket w' = apply_uploads (message_uploads cfg rt service m) (bucket w).
Proof.
  destruct (process_message_spec cfg rt service m w) as (cs & -> & _).
  by eexists.
Qed.

Lemma stored_cursor_never_decreases_witness :
  Forall (λ n, keeps_up example_runtime n.1 ∧ nonnegative_cursor example_runtime n.2)
    [(failing_service, JNum 100); (advancing_service, JNum 120)]
  ∧ cursor_le (entity (world_with None))
      (entity (run_passes example_config example_runtime
                 [(failing_service, JNum 100); (advancing_service, JNum 120)]
                 (world_with None))).
Proof.
  assert (Forall (λ n, keeps_up example_runtime n.1
                       ∧ nonnegative_cursor example_runtime n.2)
            [(failing_service, JNum 100); (advancing_service, JNum 120)]) as Hall.
  { repeat constructor.
    - intros s hist c Hh. done.
    - intros n [= <-]. lia.
    - intros s hist c [= <-] _ [= <-]. lia.
    - intros n [= <-]. lia. }
  split; [exact Hall|].
  apply (stored_cursor_never_decreases example_config example_runtime _ _ Hall).
Defined.

Example advancing_run :
  entity (run_passes example_config example_runtime
            [(failing_service, JNum 100); (advancing_service, JNum 120)]
            (world_with None)) = Some 110%Z.
Proof. reflexivity. Qed.

(** ** Writes to the Datastore *)

Section Writes.

Variable cfg : config.
Variable rt : runtime.
Variable service : gmail_service.

Local Arguments sanitize_filename : simpl never.
Local Arguments destination_blob_name : simpl never.

Lemma process_part_calls m ip w :
  ∃ cs, calls (process_part cfg rt service m ip.1 ip.2 w).2 = calls w ++ cs
        ∧ Forall (λ c, is_provider_call c = true) cs.
Proof.
  destruct w as [en bk cs0]. destruct ip as [i part].
  unfold process_part, get_attachment, upload_to_gcs.
  destruct (storage_client cfg) eqn:Hsc.
  all: run_monad.
  all: repeat (case_match; simplify_eq/=).
  all: unfold add_call, set_blob; simpl.
  all: rewrite <-?app_assoc; simpl.
  all: try (eexists; split; [reflexivity|by repeat constructor]).
  all: try (exists []; split; [by rewrite app_nil_r|constructor]).
Qed.

Lemma process_parts_calls m (l : list (nat * message_part)) w :
  ∃ cs, calls (for_each l (λ ip, process_part cfg rt service m ip.1 ip.2) w).2
        = calls w ++ cs
        ∧ Forall (λ c, is_provider_call c = true) cs.
Proof.
  revert w. induction l as [|ip l IH]; intros w.
  - exists []. split; [by rewrite app_nil_r|constructor].
  - destruct (process_part_spec cfg rt service m ip w) as (cs0 & H1 & _).
    destruct (process_part_calls m ip w) as (cs1 & Hc1 & Hp1).
    simpl. rewrite (bind_ok _ _ _ _ _ H1).
    rewrite H1 in Hc1. simpl in Hc1.
    match goal with |- context [for_each l _ ?w1] =>
      destruct (IH w1) as (cs2 & Hc2 & Hp2) end.
    exists (cs1 ++ cs2). split.
    + rewrite Hc2. simpl. by rewrite Hc1, app_assoc.
    + by apply Forall_app.
Qed.

Lemma process_message_calls m w :
  ∃ cs, calls (process_message cfg rt service m w).2 = calls w ++ cs
        ∧ Forall (λ c, is_provider_call c = true) cs.
Proof.
  unfold process_message, get_message.
  destruct (messages_get service m) as [msg|e] eqn:Hm.
  - destruct (process_parts_calls m (enumerate_from 0 (parts msg))
                (add_call (MessagesGet m) w)) as (cs & Hcs & Hp).
    exists (MessagesGet m :: cs). split; [|by constructor].
    run_monad. simpl in *. rewrite Hcs. by rewrite <-app_assoc.
  - exists [MessagesGet m]. split; [|by repeat constructor].
    run_monad. by destruct (is_HttpError e).
Qed.

Lemma process_messages_calls (l : list string) w :
  ∃ cs, calls (for_each l (process_message cfg rt service) w).2 = calls w ++ cs
        ∧ Forall (λ c, is_provider_call c = true) cs.
Proof.
  revert w. induction l as [|m l IH]; intros w.
  - exists []. split; [by rewrite app_nil_r|constructor].
  - destruct (process_message_calls m w) as (cs1 & Hc1 & Hp1).
    simpl. unfold mbind, M_bind.
    destruct (process_message cfg rt service m w) as [[[]|e] w1]; simpl in *.
    + destruct (IH w1) as (cs2 & Hc2 & Hp2).
      exists (cs1 ++ cs2). split; [by rewrite Hc2, Hc1, app_assoc|by apply Forall_app].
    + by exists cs1.
Qed.

(** The three ways [save_last_history_id] can go. *)
Lemma save_last_history_id_cases history_id w :
  save_last_history_id cfg rt history_id w = (Ok tt, w) ∧ datastore_client cfg = false
  ∨ (∃ e, save_last_history_id cfg rt history_id w = (Raise e, w))
  ∨ (∃ n, save_last_history_id cfg rt history_id w
          = (Ok tt, add_call (DatastorePut n) (set_entity n w))).
Proof.
  unfold save_last_history_id.
  destruct (datastore_client cfg); run_monad; [|by left].
  destruct (py_int rt history_id) as [n|e]; right; [right|left]; by eexists.
Qed.

Lemma save_writes_at_most_once history_id w cs :
  Forall (λ c, is_provider_call c = true) cs →
  ∃ cs', calls (save_last_history_id cfg rt history_id
                  {| entity := entity w; bucket := bucket w; calls := calls w ++ cs |}).2
         = calls w ++ cs'
         ∧ writes_at_most_once cs' (entity w)
             (entity (save_last_history_id cfg rt history_id
                        {| entity := entity w; bucket := bucket w;
                           calls := calls w ++ cs |}).2).
Proof.
  intros Hcs.
  destruct (save_last_history_id_cases history_id
              {| entity := entity w; bucket := bucket w; calls := calls w ++ cs |})
    as [[-> _]|[[e ->]|[n ->]]]; simpl.
  - exists cs. split; [done|]. by left.
  - exists cs. split; [done|]. by left.
  - exists (cs ++ [DatastorePut n]). split; [by rewrite app_assoc|].
    right. by exists cs, n.
Qed.

End Writes.

(** X3.  A pass writes the cursor at most once, and only as its very last
    call: every call before it goes to the provider or the bucket, and the
    value written is the one stored at the end.  Without a write the stored
    cursor is the one found at the start. *)
Theorem cursor_is_written_last_and_once cfg rt service hid w :
  ∃ cs, calls (process_new_mail cfg rt service hid w).2 = calls w ++ cs
        ∧ writes_at_most_once cs (entity w)
            (entity (process_new_mail cfg rt service hid w).2).
Proof.
  assert (∀ o : option Z, writes_at_most_once [] o o) as Hnone
    by (intros o; left; by split; [constructor|]).
  assert (w = {| entity := entity w; bucket := bucket w; calls := calls w ++ [] |})
    as Hw0 by (destruct w; simpl; by rewrite app_nil_r).
  destruct (datastore_client cfg) eqn:Hds.
  2:{ unfold process_new_mail. rewrite Hds. exists []. simpl.
      rewrite app_nil_r. split; [done|apply Hnone]. }
  rewrite process_new_mail_unfold by done.
  assert (∃ cs, calls (save_last_history_id cfg rt hid w).2 = calls w ++ cs
                ∧ writes_at_most_once cs (entity w)
                    (entity (save_last_history_id cfg rt hid w).2)) as Hsave.
  { destruct (save_writes_at_most_once cfg rt hid w [])
      as (cs' & Hc & Hwr); [constructor|].
    rewrite <-Hw0 in Hc, Hwr. by exists cs'. }
  destruct (entity w) as [s|] eqn:Hw; [|done].
  destruct (decide (s = 0%Z)) as [->|Hs]; [done|].
  assert (∀ X Y : res unit * world, match s with 0%Z => X | _ => Y end = Y) as ->
    by (intros; by destruct s).
  destruct (py_int rt hid) as [n|e];
    [|exists []; simpl; rewrite app_nil_r, Hw; split; [done|apply Hnone]].
  destruct (n <=? s)%Z; [exists []; simpl; rewrite app_nil_r, Hw; split; [done|apply Hnone]|].
  destruct (history_list service s) as [hist|e]; simpl.
  2:{ exists [HistoryList s]. rewrite Hw. split; [done|]. left.
      by split; [repeat constructor|]. }
  destruct (decide (history hist = [])) as [Hnil|Hne].
  - unfold process_history. rewrite Hnil. run_monad.
    destruct (py_int rt _) as [c|e]; simpl.
    2:{ exists [HistoryList s]. rewrite Hw. split; [done|]. left.
        by split; [repeat constructor|]. }
    destruct (s <? c)%Z.
    2:{ exists [HistoryList s]. simpl. rewrite Hw. split; [done|]. left.
        by split; [repeat constructor|]. }
    rewrite <-Hw.
    apply (save_writes_at_most_once cfg rt _ w [HistoryList s]).
    by repeat constructor.
  - rewrite process_history_changes by done.
    set (l := set_order rt (collect_message_ids (history hist))).
    destruct (process_messages_calls cfg rt service l (add_call (HistoryList s) w))
      as (cs & Hcs & Hp).
    destruct (process_messages_spec cfg rt service l (add_call (HistoryList s) w))
      as (seen & cs0 & r & Hrun & _).
    rewrite Hrun in Hcs. simpl in Hcs.
    destruct r as [[]|e].
    + rewrite (bind_ok _ _ _ _ _ Hrun).
      simpl. rewrite Hcs, <-app_assoc. rewrite <-Hw.
      apply (save_writes_at_most_once cfg rt _
               {| entity := entity w;
                  bucket := apply_uploads (seen ≫= message_uploads cfg rt service)
                              (bucket w);
                  calls := calls w |} ([HistoryList s] ++ cs)).
      apply Forall_app. by split; [repeat constructor|].
    + rewrite (bind_raise _ _ _ _ _ Hrun). simpl.
      exists ([HistoryList s] ++ cs). rewrite Hcs, <-app_assoc, Hw.
      split; [done|]. left. split; [|done].
      apply Forall_app. by split; [repeat constructor|].
Qed.

(** ** More on the push endpoint *)

Lemma target_push_carries : push_carries mail_runtime target_push target_notification.
Proof. eexists _, _, _. split_and!; try reflexivity. done. Qed.

Section EndpointFacts.

Variable cfg : config.
Variable rt : runtime.
Hypothesis datastore_ready : datastore_client cfg = true.
Hypothesis storage_ready : storage_client cfg = true.

(** The answer to a push that carries a notification. *)
Lemma push_carrying envelope notification service w :
  push_carries rt envelope notification →
  process_pubsub_push cfg rt envelope service w
  = if differs_from_target cfg (notified_address notification) then (Ok 204%Z, w)
    else
      match service with
      | None => (Ok 500%Z, w)
      | Some service =>
          match process_new_mail cfg rt service (notified_cursor notification) w with
          | (Ok _, w') => (Ok 204%Z, w')
          | (Raise e, w') => (Ok (if is_JSONDecodeError e then 400 else 500)%Z, w')
          end
      end.
Proof.
  intros (items & fields & d & -> & Hm & Hne & Hd & Hdec).
  rewrite (push_with_message cfg rt datastore_ready storage_ready items fields) by done.
  by rewrite Hd, Hdec.
Qed.

(** Without a usable cursor in the notification the pass raises at once. *)
Lemma process_new_mail_without_cursor service hid e w :
  py_int rt hid = Raise e →
  process_new_mail cfg rt service hid w = (Raise e, w).
Proof.
  intros He. rewrite process_new_mail_unfold by done.
  assert (save_last_history_id cfg rt hid w = (Raise e, w)) as Hsave.
  { unfold save_last_history_id. rewrite datastore_ready. run_monad. by rewrite He. }
  rewrite He. by destruct (entity w) as [[]|].
Qed.

End EndpointFacts.

(** X14.  Once [request.get_json()] has returned, whatever value it
    returned and whatever the service and the state are, the answer is one
    of the three statuses 204, 400 and 500. *)
Theorem push_status_is_204_400_or_500 cfg rt envelope service w :
  http_status (process_pubsub_push cfg rt envelope service w).1 ∈ [204; 400; 500]%Z.
Proof.
  unfold process_pubsub_push.
  destruct (negb (datastore_client cfg) || negb (storage_client cfg));
    [simpl; set_solver|].
  destruct (negb (truthy envelope)); [simpl; set_solver|].
  unfold mbind, M_bind, lift, try_except.
  destruct (py_get envelope "message") as [msg|e]; [|simpl; set_solver].
  destruct (negb (truthy msg)); [simpl; set_solver|].
  destruct (py_get msg "messageId") as [mid|e]; [|simpl; set_solver].
  cbn [is_Exception].
  destruct (py_in "data" msg); [|simpl; set_solver].
  destruct (decode_notification rt _) as [n|e];
    [|destruct (is_JSONDecodeError e); simpl; set_solver].
  destruct (py_get n "emailAddress") as [a|e];
    [|destruct (is_JSONDecodeError e); simpl; set_solver].
  destruct (py_get n "historyId") as [h|e];
    [|destruct (is_JSONDecodeError e); simpl; set_solver].
  destruct (differs_from_target cfg a); [simpl; set_solver|].
  destruct service as [service|]; [|simpl; set_solver].
  destruct (process_new_mail cfg rt service h w) as [[[]|e] w']; [simpl; set_solver|].
  destruct (is_JSONDecodeError e); simpl; set_solver.
Qed.

(** X15.  A body with a missing part is rejected with 400 and nothing else
    happens: an empty or absent body, an envelope without a usable
    ['message'], a message without ['data']. *)
Theorem push_with_missing_part_answers_400 cfg rt envelope service w :
  datastore_client cfg = true → storage_client cfg = true →
  truthy envelope = false
  ∨ (∃ items, envelope = JObj items ∧ items ≠ []
              ∧ truthy (default JNull (dict_lookup "message" items)) = false)
  ∨ (∃ items fields, envelope = JObj items
                     ∧ dict_lookup "message" items = Some (JObj fields)
                     ∧ fields ≠ [] ∧ dict_lookup "data" fields = None) →
  process_pubsub_push cfg rt envelope service w = (Ok 400%Z, w).
Proof.
  intros Hds Hsc [He|[(items & -> & Hne & Hm)|(items & fields & -> & Hm & Hne & Hd)]].
  - by apply push_without_envelope.
  - by apply push_without_message.
  - by apply (push_without_data cfg rt Hds Hsc items fields).
Qed.

Lemma push_with_missing_part_answers_400_witness :
  (datastore_client example_config = true ∧ storage_client example_config = true
   ∧ dict_lookup "message" [("message", JObj [("messageId", JStr "1")])]
     = Some (JObj [("messageId", JStr "1")])
   ∧ dict_lookup "data" [("messageId", JStr "1")] = None)
  ∧ process_pubsub_push example_config example_runtime
      (JObj [("message", JObj [("messageId", JStr "1")])])
      (Some failing_service) (world_with (Some 50%Z))
    = (Ok 400%Z, world_with (Some 50%Z)).
Proof.
  split; [split_and!; reflexivity|].
  apply (push_with_missing_part_answers_400 example_config example_runtime
           (JObj [("message", JObj [("messageId", JStr "1")])])
           (Some failing_service) (world_with (Some 50%Z)));
    [reflexivity|reflexivity|].
  right. right. eexists _, _. split_and!; [reflexivity|reflexivity|done|reflexivity].
Defined.

(** X16.  Data whose text is not JSON is rejected with 400: the
    [JSONDecodeError] of [json.loads] is the one decoding failure with a
    clause of its own. *)
Theorem push_with_invalid_json_answers_400 cfg rt envelope items fields d raw text service w :
  datastore_client cfg = true → storage_client cfg = true →
  envelope = JObj items →
  dict_lookup "message" items = Some (JObj fields) → fields ≠ [] →
  dict_lookup "data" fields = Some (JStr d) →
  b64decode rt d = Ok raw → utf8_decode rt raw = Ok text →
  json_loads rt text = Raise JSONDecodeError →
  process_pubsub_push cfg rt envelope service w = (Ok 400%Z, w).
Proof.
  intros Hds Hsc -> Hm Hne Hd Hb Hu Hj.
  apply (push_data_not_json cfg rt Hds Hsc items fields (JStr d)); try done.
  unfold decode_notification. by rewrite Hb, Hu.
Qed.

Lemma push_with_invalid_json_answers_400_witness :
  (datastore_client example_config = true ∧ storage_client example_config = true
   ∧ dict_lookup "message" [("message", JObj [("data", JStr "bm8=")])]
     = Some (JObj [("data", JStr "bm8=")])
   ∧ [("data", JStr "bm8=")] ≠ []
   ∧ dict_lookup "data" [("data", JStr "bm8=")] = Some (JStr "bm8=")
   ∧ b64decode example_runtime "bm8=" = Ok [x6e; x6f]
   ∧ utf8_decode example_runtime [x6e; x6f] = Ok "no"
   ∧ json_loads example_runtime "no" = Raise JSONDecodeError)
  ∧ process_pubsub_push example_config example_runtime
      (JObj [("message", JObj [("data", JStr "bm8=")])])
      (Some failing_service) (world_with (Some 50%Z))
    = (Ok 400%Z, world_with (Some 50%Z)).
Proof.
  split; [split_and!; (reflexivity || done)|].
  apply (push_with_invalid_json_answers_400 example_config example_runtime
           _ [("message", JObj [("data", JStr "bm8=")])] [("data", JStr "bm8=")]
           "bm8=" [x6e; x6f] "no" (Some failing_service) (world_with (Some 50%Z)));
    (reflexivity || done).
Defined.

(** X17.  A notification for another address is acknowledged with 204 and
    nothing else happens: no pass, no call, no change of state. *)
Theorem push_for_other_address_is_ignored cfg rt envelope notification service w :
  datastore_client cfg = true → storage_client cfg = true →
  push_carries rt envelope notification →
  differs_from_target cfg (notified_address notification) = true →
  process_pubsub_push cfg rt envelope service w = (Ok 204%Z, w).
Proof.
  intros Hds Hsc Hc Hdiff.
  by rewrite (push_carrying cfg rt Hds Hsc envelope notification), Hdiff.
Qed.

Lemma push_for_other_address_is_ignored_witness :
  let notification :=
    [("emailAddress", JStr "other@example.com"); ("historyId", JNum 60)] in
  (datastore_client example_config = true ∧ storage_client example_config = true
   ∧ push_carries mail_runtime foreign_push notification
   ∧ differs_from_target example_config (notified_address notification) = true)
  ∧ process_pubsub_push example_config mail_runtime foreign_push
      (Some partly_failing_service) (world_with (Some 50%Z))
    = (Ok 204%Z, world_with (Some 50%Z)).
Proof.
  assert (push_carries mail_runtime foreign_push
            [("emailAddress", JStr "other@example.com"); ("historyId", JNum 60)]) as Hc.
  { eexists _, _, _. split_and!; try reflexivity. done. }
  split; [split_and!; [reflexivity|reflexivity|exact Hc|reflexivity]|].
  apply (push_for_other_address_is_ignored example_config mail_runtime foreign_push
           [("emailAddress", JStr "other@example.com"); ("historyId", JNum 60)]
           (Some partly_failing_service) (world_with (Some 50%Z)));
    [reflexivity|reflexivity|exact Hc|reflexivity].
Defined.

(** X18.  The first notification for the target address is acknowledged with
    204 and its cursor becomes the stored one; nothing is fetched. *)
Theorem first_push_sets_baseline cfg rt envelope notification service n w :
  datastore_client cfg = true → storage_client cfg = true →
  push_carries rt envelope notification →
  differs_from_target cfg (notified_address notification) = false →
  py_int rt (notified_cursor notification) = Ok n →
  entity w = None →
  process_pubsub_push cfg rt envelope (Some service) w
  = (Ok 204%Z, {| entity := Some n; bucket := bucket w;
                  calls := calls w ++ [DatastorePut n] |}).
Proof.
  intros Hds Hsc Hc Hdiff Hn Hw.
  rewrite (push_carrying cfg rt Hds Hsc envelope notification), Hdiff by done.
  by rewrite (process_new_mail_first_run cfg rt Hds service _ n w) by auto.
Qed.

Lemma first_push_sets_baseline_witness :
  (datastore_client example_config = true ∧ storage_client example_config = true
   ∧ push_carries mail_runtime target_push target_notification
   ∧ differs_from_target example_config (notified_address target_notification) = false
   ∧ py_int mail_runtime (notified_cursor target_notification) = Ok 60%Z
   ∧ entity (world_with None) = None)
  ∧ process_pubsub_push example_config mail_runtime target_push
      (Some partly_failing_service) (world_with None)
    = (Ok 204%Z, {| entity := Some 60%Z; bucket := bucket (world_with None);
                    calls := calls (world_with None) ++ [DatastorePut 60] |}).
Proof.
  split; [split_and!; [reflexivity|reflexivity|apply target_push_carries
                      |reflexivity|reflexivity|reflexivity]|].
  apply (first_push_sets_baseline example_config mail_runtime target_push
           target_notification partly_failing_service 60 (world_with None));
    [reflexivity|reflexivity|apply target_push_carries|reflexivity|reflexivity
    |reflexivity].
Defined.

(** X19.  A duplicate or stale notification for the target address (cursor
    not above the non-zero stored one) is acknowledged with 204 and leaves
    everything as it is. *)
Theorem stale_push_is_acknowledged cfg rt envelope notification service s n w :
  datastore_client cfg = true → storage_client cfg = true →
  push_carries rt envelope notification →
  differs_from_target cfg (notified_address notification) = false →
  py_int rt (notified_cursor notification) = Ok n →
  entity w = Some s → s ≠ 0%Z → (n ≤ s)%Z →
  process_pubsub_push cfg rt envelope (Some service) w = (Ok 204%Z, w).
Proof.
  intros Hds Hsc Hc Hdiff Hn Hw Hs Hle.
  rewrite (push_carrying cfg rt Hds Hsc envelope notification), Hdiff by done.
  by rewrite (process_new_mail_stale cfg rt Hds service _ s n w).
Qed.

Lemma stale_push_is_acknowledged_witness :
  (datastore_client example_config = true ∧ storage_client example_config = true
   ∧ push_carries mail_runtime target_push target_notification
   ∧ differs_from_target example_config (notified_address target_notification) = false
   ∧ py_int mail_runtime (notified_cursor target_notification) = Ok 60%Z
   ∧ entity (world_with (Some 60%Z)) = Some 60%Z ∧ 60%Z ≠ 0%Z ∧ (60 ≤ 60)%Z)
  ∧ process_pubsub_push example_config mail_runtime target_push
      (Some partly_failing_service) (world_with (Some 60%Z))
    = (Ok 204%Z, world_with (Some 60%Z)).
Proof.
  split; [split_and!; [reflexivity|reflexivity|apply target_push_carries
                      |reflexivity|reflexivity|reflexivity|lia|lia]|].
  apply (stale_push_is_acknowledged example_config mail_runtime target_push
           target_notification partly_failing_service 60 60 (world_with (Some 60%Z)));
    [reflexivity|reflexivity|apply target_push_carries|reflexivity|reflexivity
    |reflexivity|lia|lia].
Defined.

(** X20.  When the history request fails, the stored cursor and the bucket
    are as before and the only call made is that request.  The endpoint
    answers 500, so that the notification is delivered again, unless the
    exception is a [JSONDecodeError]: the clause for that class encloses
    the pass, and the answer is then 400. *)
Theorem failed_history_request_answer cfg rt envelope notification service s n e w :
  datastore_client cfg = true → storage_client cfg = true →
  push_carries rt envelope notification →
  differs_from_target cfg (notified_address notification) = false →
  py_int rt (notified_cursor notification) = Ok n →
  entity w = Some s → s ≠ 0%Z → (s < n)%Z →
  history_list service s = Raise e →
  process_pubsub_push cfg rt envelope (Some service) w
  = (Ok (if bool_decide (e = JSONDecodeError) then 400 else 500)%Z,
     {| entity := Some s; bucket := bucket w;
        calls := calls w ++ [HistoryList s] |}).
Proof.
  intros Hds Hsc Hc Hdiff Hn Hw Hs Hlt Hh.
  rewrite (push_carrying cfg rt Hds Hsc envelope notification), Hdiff by done.
  rewrite (process_new_mail_fresh cfg rt Hds service _ s n w), Hh by done.
  unfold is_JSONDecodeError, add_call. by rewrite Hw.
Qed.

Lemma failed_history_request_answer_witness :
  (datastore_client example_config = true ∧ storage_client example_config = true
   ∧ push_carries mail_runtime target_push target_notification
   ∧ differs_from_target example_config (notified_address target_notification) = false
   ∧ py_int mail_runtime (notified_cursor target_notification) = Ok 60%Z
   ∧ entity (world_with (Some 50%Z)) = Some 50%Z ∧ 50%Z ≠ 0%Z ∧ (50 < 60)%Z
   ∧ history_list failing_service 50 = Raise HttpError
   ∧ history_list garbled_service 50 = Raise JSONDecodeError)
  ∧ process_pubsub_push example_config mail_runtime target_push
      (Some failing_service) (world_with (Some 50%Z))
    = (Ok 500%Z, {| entity := Some 50%Z; bucket := ∅; calls := [HistoryList 50] |})
  ∧ process_pubsub_push example_config mail_runtime target_push
      (Some garbled_service) (world_with (Some 50%Z))
    = (Ok 400%Z, {| entity := Some 50%Z; bucket := ∅; calls := [HistoryList 50] |}).
Proof.
  split; [split_and!; [reflexivity|reflexivity|apply target_push_carries
                      |reflexivity|reflexivity|reflexivity|lia|lia|reflexivity
                      |reflexivity]|].
  split.
  - apply (failed_history_request_answer example_config mail_runtime target_push
             target_notification failing_service 50 60 HttpError
             (world_with (Some 50%Z)));
      [reflexivity|reflexivity|apply target_push_carries|reflexivity|reflexivity
      |reflexivity|lia|lia|reflexivity].
  - apply (failed_history_request_answer example_config mail_runtime target_push
             target_notification garbled_service 50 60 JSONDecodeError
             (world_with (Some 50%Z)));
      [reflexivity|reflexivity|apply target_push_carries|reflexivity|reflexivity
      |reflexivity|lia|lia|reflexivity].
Defined.

(** X21.  A notification for the target address that has no [historyId] is
    answered with 500, whatever is stored: [int(None)] raises [TypeError]
    before anything is read from the provider or written. *)
Theorem push_without_history_id_answers_500 cfg rt envelope notification service w :
  datastore_client cfg = true → storage_client cfg = true →
  push_carries rt envelope notification →
  differs_from_target cfg (notified_address notification) = false →
  dict_lookup "historyId" notification = None →
  process_pubsub_push cfg rt envelope (Some service) w = (Ok 500%Z, w).
Proof.
  intros Hds Hsc Hc Hdiff Hh.
  rewrite (push_carrying cfg rt Hds Hsc envelope notification), Hdiff by done.
  rewrite (process_new_mail_without_cursor cfg rt Hds service _ TypeError); [done|].
  unfold notified_cursor. by rewrite Hh.
Qed.

Lemma push_without_history_id_answers_500_witness :
  let notification := [("emailAddress", JStr "inbox@example.com")] in
  (datastore_client example_config = true ∧ storage_client example_config = true
   ∧ push_carries mail_runtime incomplete_push notification
   ∧ differs_from_target example_config (notified_address notification) = false
   ∧ dict_lookup "historyId" notification = None)
  ∧ process_pubsub_push example_config mail_runtime incomplete_push
      (Some partly_failing_service) (world_with (Some 50%Z))
    = (Ok 500%Z, world_with (Some 50%Z)).
Proof.
  assert (push_carries mail_runtime incomplete_push
            [("emailAddress", JStr "inbox@example.com")]) as Hc.
  { eexists _, _, _. split_and!; try reflexivity. done. }
  split; [split_and!; [reflexivity|reflexivity|exact Hc|reflexivity|reflexivity]|].
  apply (push_without_history_id_answers_500 example_config mail_runtime
           incomplete_push [("emailAddress", JStr "inbox@example.com")]
           partly_failing_service (world_with (Some 50%Z)));
    [reflexivity|reflexivity|exact Hc|reflexivity|reflexivity].
Defined.

(** X22.  [get_gmail_service] never raises: without the key file, or when
    building the service raises, it returns [None]; the endpoint then
    answers a notification for the target address with 500 and does
    nothing. *)
Theorem missing_credentials_answer_500 cfg rt env envelope notification w :
  datastore_client cfg = true → storage_client cfg = true →
  push_carries rt envelope notification →
  differs_from_target cfg (notified_address notification) = false →
  key_file_exists env = false
  ∨ (∃ e, build_service env (TARGET_USER_EMAIL cfg) = Raise e) →
  get_gmail_service env (TARGET_USER_EMAIL cfg) w = (Ok None, w)
  ∧ process_pubsub_push cfg rt envelope None w = (Ok 500%Z, w).
Proof.
  intros Hds Hsc Hc Hdiff Hkey. split.
  - unfold get_gmail_service. run_monad.
    destruct Hkey as [->|[e He]]; [done|].
    rewrite He. by destruct (key_file_exists env).
  - by rewrite (push_carrying cfg rt Hds Hsc envelope notification), Hdiff.
Qed.

Lemma missing_credentials_answer_500_witness :
  let env := {| key_file_exists := false;
                build_service _ := Ok partly_failing_service |} in
  (datastore_client example_config = true ∧ storage_client example_config = true
   ∧ push_carries mail_runtime target_push target_notification
   ∧ differs_from_target example_config (notified_address target_notification) = false
   ∧ key_file_exists env = false)
  ∧ get_gmail_service env (TARGET_USER_EMAIL example_config) (world_with (Some 50%Z))
    = (Ok None, world_with (Some 50%Z))
  ∧ process_pubsub_push example_config mail_runtime target_push None
      (world_with (Some 50%Z))
    = (Ok 500%Z, world_with (Some 50%Z)).
Proof.
  split; [split_and!; [reflexivity|reflexivity|apply target_push_carries
                      |reflexivity|reflexivity]|].
  apply (missing_credentials_answer_500 example_config mail_runtime
           {| key_file_exists := false; build_service _ := Ok partly_failing_service |}
           target_push target_notification (world_with (Some 50%Z)));
    [reflexivity|reflexivity|apply target_push_carries|reflexivity|by left].
Defined.

(** ** Blob names of the parts of a message *)

Section PartNames.

Variable cfg : config.
Variable rt : runtime.
Variable service : gmail_service.

Local Arguments sanitize_filename : simpl never.
Local Arguments destination_blob_name : simpl never.

(** [enumerate] pairs every element with its position. *)
Lemma enumerate_from_lookup {A} (i : nat) (l : list A) (p : nat) :
  enumerate_from i l !! p = (λ x, (i + p, x)) <$> l !! p.
Proof.
  revert i p. induction l as [|x l IH]; intros i [|p]; simpl; try done.
  - by rewrite Nat.add_0_r.
  - rewrite IH. destruct (l !! p); simpl; [|done]. do 2 f_equal. lia.
Qed.

Lemma uploaded_names_app cs1 cs2 :
  uploaded_names (cs1 ++ cs2) = uploaded_names cs1 ++ uploaded_names cs2.
Proof. apply omap_app. Qed.

(** One part hands at most one object to the bucket, named after its own
    index. *)
Lemma process_part_upload_names m ip w :
  ∃ cs, calls (process_part cfg rt service m ip.1 ip.2 w).2 = calls w ++ cs
        ∧ (uploaded_names cs = []
           ∨ ∃ f, uploaded_names cs
                  = [destination_blob_name m ip.1 (sanitize_filename f)]).
Proof.
  destruct w as [en bk cs0]. destruct ip as [i part].
  unfold process_part, get_attachment, upload_to_gcs.
  destruct (storage_client cfg) eqn:Hsc.
  all: run_monad.
  all: repeat (case_match; simplify_eq/=).
  all: unfold add_call, set_blob; simpl.
  all: rewrite <-?app_assoc; simpl.
  all: try (eexists; split; [reflexivity|by left]).
  all: try (eexists; split; [reflexivity|right; by eexists]).
  all: try (exists []; split; [by rewrite app_nil_r|by left]).
Qed.

(** The names handed to the bucket for the parts of one message are
    pairwise distinct, and each carries an index not below the start. *)
Lemma process_parts_upload_names m i (l : list message_part) w :
  ∃ cs, calls (for_each (enumerate_from i l)
                 (λ ip, process_part cfg rt service m ip.1 ip.2) w).2
        = calls w ++ cs
        ∧ NoDup (uploaded_names cs)
        ∧ Forall (λ name, ∃ j f, (i ≤ j)%nat
                          ∧ name = destination_blob_name m j (sanitize_filename f))
            (uploaded_names cs).
Proof.
  revert i w. induction l as [|part l IH]; intros i w.
  - exists []. simpl. split_and!; [by rewrite app_nil_r|constructor|constructor].
  - destruct (process_part_spec cfg rt service m (i, part) w) as (cs0 & H1 & _).
    destruct (process_part_upload_names m (i, part) w) as (cs1 & Hc1 & Hn1).
    simpl in *. rewrite (bind_ok _ _ _ _ _ H1).
    rewrite H1 in Hc1. simpl in Hc1.
    match goal with |- context [for_each _ _ ?w1] =>
      destruct (IH (S i) w1) as (cs2 & Hc2 & Hnd2 & Hall2) end.
    exists (cs1 ++ cs2). rewrite uploaded_names_app. split_and!.
    + rewrite Hc2. simpl. by rewrite Hc1, app_assoc.
    + destruct Hn1 as [->|[f ->]]; [done|]. simpl.
      apply NoDup_cons. split; [|done].
      intros Hin. rewrite Forall_forall in Hall2.
      destruct (Hall2 _ Hin) as (j & f' & Hj & Heq).
      unfold destination_blob_name in Heq.
      apply (inj (String.app m)), (inj (String.app "/")) in Heq.
      apply BlobName.index_name_inj in Heq as [? _]. lia.
    + apply Forall_app. split.
      * destruct Hn1 as [->|[f ->]]; [constructor|].
        repeat constructor. by exists i, f.
      * eapply Forall_impl; [exact Hall2|].
        intros name (j & f & Hj & ->). exists j, f. split; [lia|done].
Qed.

End PartNames.

(** C9.  Blob names are collision-free within a message.  [enumerate] gives
    the parts at two different positions of a message their positions as
    indices, and names built with different indices differ whatever the two
    file names are, the same name included; accordingly the object names
    that the loop over the parts of a message hands to the bucket are
    pairwise distinct. *)
Theorem part_blob_names_distinct cfg rt service msg_id (parts : list message_part) :
  (∀ p q a b, p ≠ q → parts !! p = Some a → parts !! q = Some b →
     enumerate_from 0 parts !! p = Some (p, a)
     ∧ enumerate_from 0 parts !! q = Some (q, b)
     ∧ ∀ f1 f2,
         destination_blob_name msg_id p (sanitize_filename f1)
         ≠ destination_blob_name msg_id q (sanitize_filename f2))
  ∧ (∀ w, ∃ cs,
       calls (for_each (enumerate_from 0 parts)
                (λ ip, process_part cfg rt service msg_id ip.1 ip.2) w).2
       = calls w ++ cs
       ∧ NoDup (uploaded_names cs)).
Proof.
  split.
  - intros p q a b Hpq Ha Hb. rewrite !enumerate_from_lookup, Ha, Hb.
    split_and!; [done..|].
    intros f1 f2 Heq. unfold destination_blob_name in Heq.
    apply (inj (String.app msg_id)), (inj (String.app "/")) in Heq.
    by apply BlobName.index_name_inj in Heq as [? _].
  - intros w.
    destruct (process_parts_upload_names cfg rt service msg_id 0 parts w)
      as (cs & Hcs & Hnd & _).
    by exists cs.
Qed.

(** Two parts both named report.pdf, run through [process_message]: two
    objects are stored, told apart by the part index. *)
Example twin_parts_run :
  let out := process_message example_config example_runtime twin_service "m7"
               (world_with (Some 50%Z)) in
  out.1 = Ok tt
  ∧ uploaded_names (calls out.2) = ["m7/0_report.pdf"; "m7/1_report.pdf"]
  ∧ (map_to_list (bucket out.2)).*1 ≡ₚ ["m7/0_report.pdf"; "m7/1_report.pdf"].
Proof.
  vm_compute. split_and!; try reflexivity. apply Permutation_swap.
Qed.

(** ** A detail request that breaks *)

(** C8 fails on the code.  Cursor 50 is stored, the notification carries 60
    and the history names two new INBOX messages.  The details of "m1" are
    fetched and its attachment is uploaded; the detail request for "m2"
    fails with a timeout, which is no [HttpError]: [get_message] does not
    catch it, the pass ends with that exception, and the cursor stays at 50
    instead of moving to the reported 70. *)
Theorem timeout_on_detail_request_aborts_pass :
  let out := process_new_mail example_config example_runtime broken_service
               (JNum 60) (world_with (Some 50%Z)) in
  out.1 = Raise (OtherError "TimeoutError")
  ∧ entity out.2 = Some 50%Z
  ∧ map_to_list (bucket out.2)
    = [("m1/0_report.pdf",
        {| blob_data := [x41]; blob_content_type := "application/pdf" |})]
  ∧ calls out.2
    = [HistoryList 50; MessagesGet "m1"; AttachmentsGet "m1" "att-1";
       BlobUpload "m1/0_report.pdf"; MessagesGet "m2"].
Proof. vm_compute. split_and!; reflexivity. Qed.
